(** * ONNX-Metadata: the interface diff tool and the metadata writer

    A shallow embedding of [onnx-model-validator.py] and
    [set_onnx_metadata.py].  Python values are modelled by inductive types,
    the module-level [REPORT] object and the standard streams by an explicit
    state, and [sys.exit] and uncaught exceptions by a result type. *)

From Stdlib Require Import ZArith Ascii Floats.SpecFloat.
From stdpp Require Import gmap strings list pretty.

#[local] Set Warnings "-register-all".

Local Open Scope string_scope.
Local Open Scope list_scope.
Local Open Scope Z_scope.

(** ** Python run-time model *)

Module Py.

(** The exceptions this program can raise without catching them. *)
Inductive Exception :=
  | KeyError (key : string)
  | TypeError (what : string)
  | AttributeError (what : string)
  | UnboundLocalError (name : string)
  | OSError (path : string)
  | LibraryError (origin : string).

(** How the evaluation of a statement ends: normally with a value, in
    [sys.exit(code)], or in an exception nobody catches. *)
Inductive Result (A : Type) :=
  | Normal (a : A)
  | SystemExit (code : Z)
  | Uncaught (e : Exception).
Arguments Normal {A} a.
Arguments SystemExit {A} code.
Arguments Uncaught {A} e.

(** The status the interpreter hands to the operating system: the argument
    of [sys.exit], 1 after a traceback, 0 when the script runs off its end. *)
Definition process_status {A} (r : Result A) : Z :=
  match r with
  | Normal _ => 0
  | SystemExit code => code
  | Uncaught _ => 1
  end.

(** Statements over a state [S]. *)
Definition M (S A : Type) : Type := S → Result A * S.

Definition ret {S A} (a : A) : M S A := λ s, (Normal a, s).
Definition bind {S A B} (m : M S A) (k : A → M S B) : M S B :=
  λ s, match m s with
       | (Normal a, s') => k a s'
       | (SystemExit code, s') => (SystemExit code, s')
       | (Uncaught e, s') => (Uncaught e, s')
       end.
#[export] Instance M_ret {S} : MRet (M S) := @ret S.
#[export] Instance M_bind {S} : MBind (M S) := λ A B k m, bind m k.

Definition raise {S A} (e : Exception) : M S A := λ s, (Uncaught e, s).
Definition sys_exit {S A} (code : Z) : M S A := λ s, (SystemExit code, s).
Definition get {S} : M S S := λ s, (Normal s, s).
Definition modify {S} (f : S → S) : M S unit := λ s, (Normal tt, f s).

(** A local variable that some paths leave unassigned. *)
Definition load_local {S A} (name : string) (v : option A) : M S A :=
  match v with
  | Some a => ret a
  | None => raise (UnboundLocalError name)
  end.

(** [for x in xs: body x] *)
Fixpoint for_each {S A} (xs : list A) (body : A → M S unit) : M S unit :=
  match xs with
  | [] => ret tt
  | x :: xs' => body x;; for_each xs' body
  end.

(** *** Strings

    A [str] is modelled by the bytes of its text.  A position is then a
    byte offset; it is zero exactly when the position counted in
    characters is. *)

(** [s.startswith(p)] *)
Fixpoint startswith (s p : string) : bool :=
  match p, s with
  | EmptyString, _ => true
  | String c p', String d s' => if decide (c = d) then startswith s' p' else false
  | String _ _, EmptyString => false
  end.

(** The search of [find], with [i] the index of the first character of
    what is left of the text. *)
Fixpoint find_from (s sub : string) (i : Z) : Z :=
  if startswith s sub then i
  else match s with
       | EmptyString => -1
       | String _ s' => find_from s' sub (i + 1)
       end.

(** [s.find(sub)]: the lowest index at which [sub] occurs in [s], or -1. *)
Definition find (s sub : string) : Z := find_from s sub 0.

(** [sub in s] *)
Definition contains (s sub : string) : bool := bool_decide (0 ≤ find s sub).

(** [s.endswith(p)] *)
Definition endswith (s p : string) : bool :=
  startswith (String.rev s) (String.rev p).

(** The letters a to z go to A to Z. *)
Definition upper_char (c : ascii) : ascii :=
  let n := N_of_ascii c in
  if ((97 <=? n) && (n <=? 122))%N then ascii_of_N (n - 32) else c.

(** [s.isascii()] *)
Fixpoint isascii (s : string) : bool :=
  match s with
  | EmptyString => true
  | String c s' => bool_decide (N_of_ascii c < 128)%N && isascii s'
  end.

(** [s.upper()] for a text with [s.isascii()].  On other text Python also
    maps letters outside a to z, which this function leaves as they are:
    a theorem that depends on what the upper-cased text is assumes ASCII
    text. *)
Fixpoint upper (s : string) : string :=
  match s with
  | EmptyString => EmptyString
  | String c s' => String (upper_char c) (upper s')
  end.

(** [sub] occurs in [s] at position [i]. *)
Definition occurs_at (s sub : string) (i : nat) : Prop :=
  ∃ pre post, s = pre +:+ sub +:+ post ∧ String.length pre = i.

(** Position [i] is the leftmost one at which [sub] occurs in [s]. *)
Definition first_occurrence (s sub : string) (i : nat) : Prop :=
  occurs_at s sub i ∧ ∀ j, (j < i)%nat → ¬ occurs_at s sub j.

(** *** Ordered dictionaries with string keys *)

Definition dict (V : Type) : Type := list (string * V).

Definition keys {V} (d : dict V) : list string := d.*1.

Fixpoint dict_get {V} (d : dict V) (k : string) : option V :=
  match d with
  | [] => None
  | (k', v) :: d' => if decide (k' = k) then Some v else dict_get d' k
  end.

(** [d[k] = v]: an existing key keeps its place, a new one goes last. *)
Fixpoint dict_set {V} (k : string) (v : V) (d : dict V) : dict V :=
  match d with
  | [] => [(k, v)]
  | (k', v') :: d' =>
      if decide (k' = k) then (k, v) :: d' else (k', v') :: dict_set k v d'
  end.

(** [d[k]] *)
Definition getitem {S V} (d : dict V) (k : string) : M S V :=
  match dict_get d k with
  | Some v => ret v
  | None => raise (KeyError k)
  end.

End Py.

(** ** onnx-model-validator.py *)

Module OnnxModelValidator.
Import Py.

(** One dimension of a tensor shape as ONNX Runtime reports it: a fixed
    size, the name of a dynamic axis, or [None]. *)
Inductive Dim :=
  | DimInt (n : Z)
  | DimStr (s : string)
  | DimNone.

#[export] Instance Dim_eq_dec : EqDecision Dim.
Proof. solve_decision. Defined.

(** What [get_inputs()] and [get_outputs()] yield for each tensor. *)
Record NodeArg := {
  arg_name : string;
  arg_type : string;
  arg_shape : list Dim
}.

(** The dictionary [{'id': .., 'name': .., 'shape': ..}] built by
    [parse_layers]. *)
Record LayerData := {
  layer_id : Z;
  layer_name : string;
  layer_shape : list Dim
}.

#[export] Instance LayerData_eq_dec : EqDecision LayerData.
Proof. solve_decision. Defined.

(** [REPORT[group]] *)
Record GroupReport := {
  a_vs_b : string;
  a_layers : list LayerData;
  b_vs_a : string;
  b_layers : list LayerData;
  symantic_difference : list LayerData
}.

(** [REPORT['models']]; a field is [None] until its key is assigned. *)
Record ModelsReport := {
  model_a : option string;
  model_b : option string;
  compatability : option (dict bool)
}.

(** The module-level [REPORT]. *)
Record Report := {
  models : option ModelsReport;
  groups : dict GroupReport;
  exit_status : option Z
}.

(** The state of a run: [REPORT] and the files written so far, each with
    the report and the indentation it was serialised from. *)
Record State := {
  REPORT : Report;
  written : list (string * (Report * Z))
}.

Definition EXIT_STATUS_SUCCESS : Z := 0.
Definition EXIT_STATUS_ERROR : Z := 1.

Definition empty_report : Report :=
  {| models := None; groups := []; exit_status := None |}.

Definition initial_state : State :=
  {| REPORT := empty_report; written := [] |}.

Definition set_report (f : Report → Report) : M State unit :=
  modify (λ st, {| REPORT := f (REPORT st); written := written st |}).

(** [parse_layers]: the loop, with [idx] the running index. *)
Fixpoint parse_layers_from (idx : Z) (container : gmap string (list LayerData))
    (layers : list NodeArg) (group : string)
    : Result (gmap string (list LayerData)) :=
  match layers with
  | [] => Normal container
  | layer :: layers' =>
      let data := {| layer_id := idx;
                     layer_name := arg_name layer;
                     layer_shape := arg_shape layer |} in
      match container !! group with
      | None => Uncaught (KeyError group)
      | Some l =>
          parse_layers_from (idx + 1) (<[group := l ++ [data]]> container)
                            layers' group
      end
  end.

Definition parse_layers (container : gmap string (list LayerData))
    (layers : list NodeArg) (group : string)
    : Result (gmap string (list LayerData)) :=
  parse_layers_from 0 container layers group.

(** What the program needs from its surroundings: the file system and ONNX
    Runtime, whose [InferenceSession] either fails or gives the inputs and
    the outputs of the model.  [writable path] tells whether
    [open(path, 'w')] and the write that follows succeed. *)
Record World := {
  is_file : string → bool;
  abspath : string → string;
  InferenceSession : string → option (list NodeArg * list NodeArg);
  writable : string → bool
}.

Definition get_in_out_layers (w : World) (model_file : string)
    : Result (gmap string (list LayerData)) :=
  match InferenceSession w model_file with
  | None => Uncaught (LibraryError "onnxruntime")
  | Some (input_layers, output_layers) =>
      let layer_data : gmap string (list LayerData) :=
        <["outputs" := []]> (<["inputs" := []]> ∅) in
      match parse_layers layer_data input_layers "inputs" with
      | Normal layer_data => parse_layers layer_data output_layers "outputs"
      | r => r
      end
  end.

(** The two one-sided differences of [diff_models]. *)
Definition a_minus_b (a b : list LayerData) : list LayerData :=
  filter (λ item, item ∉ b) a.
Definition b_minus_a (a b : list LayerData) : list LayerData :=
  filter (λ item, item ∉ a) b.

(** [REPORT['models']['compatability'][group] = flag] *)
Definition set_compatability (group : string) (flag : bool) : M State unit :=
  st ← get;
  match models (REPORT st) with
  | None => raise (KeyError "models")
  | Some m =>
      match compatability m with
      | None => raise (KeyError "compatability")
      | Some c =>
          set_report (λ r,
            {| models := Some {| model_a := model_a m; model_b := model_b m;
                                 compatability := Some (dict_set group flag c) |};
               groups := groups r;
               exit_status := exit_status r |})
      end
  end.

(** [REPORT[group] = {...}] with the five entries of the else branch. *)
Definition set_group (group : string) (g : GroupReport) : M State unit :=
  set_report (λ r,
    {| models := models r;
       groups := dict_set group g (groups r);
       exit_status := exit_status r |}).

Definition diff_models (a b : list LayerData) (group : string) : M State Z :=
  let a_minus_b := a_minus_b a b in
  let b_minus_a := b_minus_a a b in
  let sym_diff := a_minus_b ++ b_minus_a in
  if decide (a = b) then
    set_compatability group true;;
    mret 0
  else
    set_compatability group false;;
    set_group group
      {| a_vs_b := "Model A contains one or more layers missing from Model B:";
         a_layers := a_minus_b;
         b_vs_a := "Model B contains one or more layers missing from Model A:";
         b_layers := b_minus_a;
         symantic_difference := sym_diff |};;
    mret 1.

(** The command line after [argparse]. *)
Record Namespace := {
  arg_model_a : string;
  arg_model_b : string;
  arg_layer_type : string;
  arg_indent : Z;
  arg_output_uri : option string
}.

(** A computation that does not touch the state, as a statement. *)
Definition lift {A} (r : Result A) : M State A := λ st, (r, st).

(** [layers['inputs']] and [layers['outputs']] *)
Definition layers_of (d : gmap string (list LayerData)) (k : string)
    : M State (list LayerData) :=
  match d !! k with
  | Some l => mret l
  | None => raise (KeyError k)
  end.

(** [main], from the parsed arguments on.  [model_a], [model_b],
    [input_status] and [output_status] are locals that only some paths
    assign.  Opening the report needs a path, and fails with [OSError]
    where the file cannot be written. *)
Definition main (w : World) (args : Namespace) : M State unit :=
  let model_a := if is_file w (arg_model_a args)
                 then Some (arg_model_a args) else None in
  let model_b := if is_file w (arg_model_b args)
                 then Some (arg_model_b args) else None in
  let output_uri :=
    match arg_output_uri args with
    | Some o => if endswith o ".json" then Some o else Some (o +:+ ".json")
    | None => None
    end in
  set_report (λ r,
    {| models := Some {| model_a := None; model_b := None;
                         compatability := None |};
       groups := groups r; exit_status := exit_status r |});;
  ma ← load_local "model_a" model_a;
  set_report (λ r,
    {| models := Some {| model_a := Some (abspath w ma); model_b := None;
                         compatability := None |};
       groups := groups r; exit_status := exit_status r |});;
  mb ← load_local "model_b" model_b;
  set_report (λ r,
    {| models := Some {| model_a := Some (abspath w ma);
                         model_b := Some (abspath w mb);
                         compatability := Some [] |};
       groups := groups r; exit_status := exit_status r |});;
  let layer_type := upper (arg_layer_type args) in
  let indent := arg_indent args in
  a_layers ← lift (get_in_out_layers w ma);
  b_layers ← lift (get_in_out_layers w mb);
  input_status ←
    (if bool_decide (layer_type ∈ ["BOTH"; "INPUTS"]) then
       ai ← layers_of a_layers "inputs";
       bi ← layers_of b_layers "inputs";
       s ← diff_models ai bi "Inputs";
       mret (Some s)
     else mret None);
  output_status ←
    (if bool_decide (layer_type ∈ ["BOTH"; "OUTPUTS"]) then
       ao ← layers_of a_layers "outputs";
       bo ← layers_of b_layers "outputs";
       s ← diff_models ao bo "Outputs";
       mret (Some s)
     else mret None);
  i ← load_local "input_status" input_status;
  o ← load_local "output_status" output_status;
  let all_status := i + o in
  let status := if decide (all_status = EXIT_STATUS_SUCCESS)
                then EXIT_STATUS_SUCCESS else EXIT_STATUS_ERROR in
  set_report (λ r,
    {| models := models r; groups := groups r; exit_status := Some status |});;
  match output_uri with
  | None => raise (TypeError "open")
  | Some path =>
      if writable w path then
        modify (λ st,
          {| REPORT := REPORT st;
             written := written st ++ [(path, (REPORT st, indent))] |});;
        sys_exit status
      else raise (OSError path)
  end.

(** *** Reading the outcome of a run *)

(** [REPORT['models']['compatability']], once it exists. *)
Definition compatability_of (st : State) : option (dict bool) :=
  models (REPORT st) ≫= compatability.

(** The compatibility flag reported for a group. *)
Definition compatible (st : State) (group : string) : option bool :=
  compatability_of st ≫= λ c, dict_get c group.

(** [REPORT[group]] *)
Definition reported (st : State) (group : string) : option GroupReport :=
  dict_get (groups (REPORT st)) group.

(** [main] has created [REPORT['models']['compatability']]. *)
Definition ready (st : State) : Prop := is_Some (compatability_of st).

(** The descriptors [parse_layers] appends for [layers], counting from
    [idx]. *)
Fixpoint descriptors (idx : Z) (layers : list NodeArg) : list LayerData :=
  match layers with
  | [] => []
  | layer :: layers' =>
      {| layer_id := idx; layer_name := arg_name layer;
         layer_shape := arg_shape layer |} :: descriptors (idx + 1) layers'
  end.

(** Every descriptor carries its own position as ['id']. *)
Definition positional (l : list LayerData) : Prop :=
  ∀ (i : nat) x, l !! i = Some x → layer_id x = Z.of_nat i.

(** *** Sample data *)

Definition layer_x : LayerData :=
  {| layer_id := 0; layer_name := "x"; layer_shape := [DimInt 1; DimInt 3] |}.
Definition layer_y : LayerData :=
  {| layer_id := 1; layer_name := "y"; layer_shape := [DimInt 1] |}.

(** [REPORT] as [main] leaves it before the first comparison. *)
Definition ready_state : State :=
  {| REPORT := {| models := Some {| model_a := Some "/models/a.onnx";
                                    model_b := Some "/models/b.onnx";
                                    compatability := Some [] |};
                  groups := []; exit_status := None |};
     written := [] |}.

(** Two files holding one and the same model: an image input with a
    dynamic batch axis and a score output. *)
Definition twin_world : World :=
  {| is_file := λ _, true;
     abspath := λ p, "/models/" +:+ p;
     InferenceSession := λ _,
       Some ([{| arg_name := "image"; arg_type := "tensor(float)";
                 arg_shape := [DimStr "N"; DimInt 3; DimInt 224; DimInt 224] |}],
             [{| arg_name := "scores"; arg_type := "tensor(float)";
                 arg_shape := [DimStr "N"; DimInt 10] |}]);
     writable := λ _, true |}.

Definition inputs_only : Namespace :=
  {| arg_model_a := "a.onnx"; arg_model_b := "b.onnx";
     arg_layer_type := "inputs"; arg_indent := 0;
     arg_output_uri := Some "report.json" |}.

Definition outputs_only : Namespace :=
  {| arg_model_a := "a.onnx"; arg_model_b := "b.onnx";
     arg_layer_type := "outputs"; arg_indent := 0;
     arg_output_uri := Some "report.json" |}.

End OnnxModelValidator.

(** ** set_onnx_metadata.py *)

Module SetOnnxMetadata.
Import Py.

(** A value as [json.load] builds it. *)
Inductive Value :=
  | PyNone
  | PyBool (b : bool)
  | PyInt (n : Z)
  | PyFloat (x : spec_float)
  | PyStr (s : string)
  | PyList (l : list Value)
  | PyDict (d : list (string * Value)).

(** The classes named in [TYPES]. *)
Inductive Class := class_str | class_int | class_list.

(** [isinstance(v, cls)]; [bool] is a subclass of [int]. *)
Definition isinstance (v : Value) (cls : Class) : bool :=
  match cls, v with
  | class_str, PyStr _ => true
  | class_int, PyInt _ => true
  | class_int, PyBool _ => true
  | class_list, PyList _ => true
  | _, _ => false
  end.

Definition METADATA : dict string := [
  ("model_type", "String: Object Detection, Pixel Segmentation, etc.");
  ("model_architecture", "String: Detectron 2, SAM, Custom, etc.");
  ("number_of_classes", "Integer: Number of trained classes, e.g., 1, 2, 3, etc.");
  ("number_of_bands", "Integer: Number of bands the model trained with, e.g., 3");
  ("number_of_epochs", "Integer: How many epochs did the model train, e.g., 100");
  ("class_names", "List[str]: Class ID ordered class names, e.g., [person, car, ...]");
  ("vendor_name", "String: Company distributing the model, e.g. NV5");
  ("model_author", "String: Original author of the model architecture, e.g., clees");
  ("model_license", "String: License for the model, e.g., Apache 2.0");
  ("model_version", "Integer: Nth version of the model distributed to NV5, e.g., 1, 2, etc.");
  ("model_date", "String: Date for which the model is ready, e.g., 2025-01-01")
].

Definition TYPES : dict Class := [
  ("model_type", class_str); ("model_architecture", class_str);
  ("number_of_classes", class_int); ("number_of_bands", class_int);
  ("number_of_epochs", class_int); ("class_names", class_list);
  ("vendor_name", class_str); ("model_author", class_str);
  ("model_license", class_str); ("model_version", class_int);
  ("model_date", class_str)
].

Definition NON_PERMISIVE_LICENSES : list string := [
  "GPL"; "AGPL"; "LGPL";
  "CC BY-NC"; "CC BY-NC-SA";
  "CC BY-ND"; "CC BY-NC-ND";
  "GNU"; "APSL"; "EPL"; "MPL"
].

(** The texts handed to [_error], by the statement that builds them. *)
Inductive ErrorMessage :=
  | MissingConfigurationKeys (diff : gset string)
  | InvalidEmptyValue (key : string)
  | MetadataShouldBe (key : string) (cls : Class)
  | ValueMatchesTemplate (key : string)
  | ClassCountMismatch (n_class_names : Z) (number_of_classes : Value)
  | NonCommercialLicense (lic : string)
  | ModelUriMissing
  | InvalidModelFile (model_uri : string)
  | InvalidModelExtension
  | MetadataMissing
  | MetadataNotDict
  | FailedToWrite (output_uri : string).

(** What the tool prints on success. *)
Inductive Notice :=
  | SuccessfullyWrote (output_uri : string).

(** An element of [model.metadata_props]. *)
Record StringStringEntryProto := {
  key : string;
  value : string
}.

(** [onnx.ModelProto]: the metadata entries, and everything else the model
    holds in serialised form. *)
Record ModelProto := {
  other_fields : string;
  metadata_props : list StringStringEntryProto
}.

(** The state of a run: what went to the standard streams and the models
    saved, each under its path. *)
Record State := {
  stderr : list ErrorMessage;
  stdout : list Notice;
  saved : list (string * ModelProto)
}.

Definition initial_state : State :=
  {| stderr := []; stdout := []; saved := [] |}.

Definition _error {A} (message : ErrorMessage) : M State A :=
  modify (λ st, {| stderr := stderr st ++ [message];
                   stdout := stdout st; saved := saved st |});;
  sys_exit 1.

(** [if cond: _error(message)] *)
Definition error_if (cond : bool) (message : ErrorMessage) : M State unit :=
  if cond then _error message else mret tt.

(** [value is None or value == ""] *)
Definition is_none_or_empty (v : Value) : bool :=
  match v with
  | PyNone => true
  | PyStr "" => true
  | _ => false
  end.

(** [len(v)] *)
Definition len {S} (v : Value) : M S Z :=
  match v with
  | PyList l => mret (Z.of_nat (length l))
  | PyDict d => mret (Z.of_nat (length d))
  | PyStr s => mret (Z.of_nat (String.length s))
  | _ => raise (TypeError "len")
  end.

(** [n == x] for an integer and a float: the comparison is exact. *)
Definition int_eq_float (n : Z) (x : spec_float) : bool :=
  match x with
  | S754_zero _ => bool_decide (n = 0)
  | S754_infinity _ => false
  | S754_nan => false
  | S754_finite s m e =>
      let v := if s then Z.neg m else Z.pos m in
      if bool_decide (0 ≤ e) then bool_decide (n = v * 2 ^ e)
      else bool_decide (n * 2 ^ (- e) = v)
  end.

(** [n != v] for an integer [n] *)
Definition int_ne (n : Z) (v : Value) : bool :=
  match v with
  | PyInt m => bool_decide (n ≠ m)
  | PyBool b => bool_decide (n ≠ if b then 1 else 0)
  | PyFloat x => negb (int_eq_float n x)
  | _ => true
  end.

(** [v.upper()] *)
Definition str_upper {S} (v : Value) : M S string :=
  match v with
  | PyStr s => mret (upper s)
  | _ => raise (AttributeError "upper")
  end.

(** [name in data] *)
Definition py_in {S} (name : string) (data : Value) : M S bool :=
  match data with
  | PyDict d => mret (bool_decide (name ∈ keys d))
  | PyList l =>
      mret (existsb (λ v, match v with
                          | PyStr s => bool_decide (s = name)
                          | _ => false
                          end) l)
  | PyStr s => mret (contains s name)
  | _ => raise (TypeError "in")
  end.

(** [data[name]] for a string [name] *)
Definition subscript {S} (data : Value) (name : string) : M S Value :=
  match data with
  | PyDict d => getitem d name
  | _ => raise (TypeError "subscript")
  end.

(** The license check at the end of [_metadata_validator], on the text
    already in upper case. *)
Definition check_licensing (lic : string) : M State unit :=
  for_each NON_PERMISIVE_LICENSES (λ npl,
    error_if (bool_decide (0 < find lic npl)) (NonCommercialLicense lic)).

Definition _metadata_validator (metadata : dict Value) : M State unit :=
  let keys := keys metadata in
  let meta_keys := Py.keys METADATA in
  (if decide ((list_to_set meta_keys : gset string) ⊆ list_to_set keys)
   then mret tt
   else
     let diff : gset string := list_to_set meta_keys ∖ list_to_set keys in
     _error (MissingConfigurationKeys diff));;
  for_each metadata (λ '(key, value),
    error_if (is_none_or_empty value) (InvalidEmptyValue key);;
    match dict_get TYPES key with
    | Some cls =>
        v ← getitem metadata key;
        error_if (negb (isinstance v cls)) (MetadataShouldBe key cls)
    | None => mret tt
    end;;
    v ← getitem metadata key;
    match v with
    | PyStr s =>
        template ← getitem METADATA key;
        error_if (contains s template) (ValueMatchesTemplate key)
    | _ => mret tt
    end);;
  class_names ← getitem metadata "class_names";
  n_class_names ← len class_names;
  number_of_classes ← getitem metadata "number_of_classes";
  error_if (int_ne n_class_names number_of_classes)
           (ClassCountMismatch n_class_names number_of_classes);;
  model_license ← getitem metadata "model_license";
  lic ← str_upper model_license;
  check_licensing lic.

Section Collaborators.

(** The libraries and the file system: [json.dumps]; [json.load] applied
    to the opened path and [onnx.load], each without a result when it
    raises; [Path.is_file] and [Path.suffix]; the text of [Path(s)], in
    which pathlib has normalised [s]; and [onnx.save], which tells whether
    the model was written. *)
Variable json_dumps : Value → string.
Variable json_load : string → option Value.
Variable onnx_load : string → option ModelProto.
Variable is_file : string → bool.
Variable suffix : string → string.
Variable Path : string → string.
Variable onnx_save : string → ModelProto → bool.

(** One turn of the loop of [_add_metadata]. *)
Definition add_entry (model : ModelProto) (item : string * Value) : ModelProto :=
  let entry := {| key := item.1; value := json_dumps item.2 |} in
  {| other_fields := other_fields model;
     metadata_props := metadata_props model ++ [entry] |}.

Definition _add_metadata (model : ModelProto) (dict_data : dict Value)
    : ModelProto :=
  let model := {| other_fields := other_fields model; metadata_props := [] |} in
  fold_left add_entry dict_data model.

Definition _write_model_metadata (config_uri : string)
    (output_uri : option string) : M State unit :=
  data ← match json_load config_uri with
         | Some data => mret data
         | None => raise (LibraryError "json")
         end;
  present ← py_in "model_uri" data;
  error_if (negb present) ModelUriMissing;;
  uri ← subscript data "model_uri";
  model_uri ← match uri with
              | PyStr s => mret (Path s)
              | _ => raise (TypeError "Path")
              end;
  error_if (negb (is_file model_uri)) (InvalidModelFile model_uri);;
  error_if (bool_decide (suffix model_uri ≠ ".onnx")) InvalidModelExtension;;
  let output_uri := default model_uri output_uri in
  present ← py_in "metadata" data;
  error_if (negb present) MetadataMissing;;
  metadata ← subscript data "metadata";
  match metadata with
  | PyDict metadata =>
      _metadata_validator metadata;;
      model ← match onnx_load model_uri with
              | Some model => mret model
              | None => raise (LibraryError "onnx")
              end;
      let model := _add_metadata model metadata in
      if bool_decide (length (metadata_props model) ≠ 0%nat) then
        if onnx_save output_uri model then
          modify (λ st,
            {| stderr := stderr st;
               stdout := stdout st ++ [SuccessfullyWrote output_uri];
               saved := saved st ++ [(output_uri, model)] |})
        else raise (LibraryError "onnx.save")
      else
        _error (FailedToWrite output_uri)
  | _ => _error MetadataNotDict
  end.

End Collaborators.

(** *** Reading the spec's words *)

(** The gate of the spec: some deny-listed token occurs in the text at a
    position greater than zero. *)
Definition denied_after_start (lic : string) : Prop :=
  ∃ npl i, npl ∈ NON_PERMISIVE_LICENSES ∧ (0 < i)%nat ∧ occurs_at lic npl i.

(** The gate of the code: for some deny-listed token the leftmost
    occurrence is at a position greater than zero. *)
Definition denied_first_after_start (lic : string) : Prop :=
  ∃ npl i, npl ∈ NON_PERMISIVE_LICENSES ∧ (0 < i)%nat ∧
           first_occurrence lic npl i.

(** The entry the spec asks for: the key, and the JSON text of the value. *)
Definition entry_of (json_dumps : Value → string) (item : string * Value)
    : StringStringEntryProto :=
  {| key := item.1; value := json_dumps item.2 |}.

(** A run of the validator that ends in [_error(message)]. *)
Definition rejected_with (message : ErrorMessage) (st : State)
    (run : Result unit * State) : Prop :=
  run = (SystemExit 1,
         {| stderr := stderr st ++ [message];
            stdout := stdout st; saved := saved st |}).

(** *** Sample data *)

Definition good_record : dict Value := [
  ("model_type", PyStr "Object Detection");
  ("model_architecture", PyStr "Custom");
  ("number_of_classes", PyInt 2);
  ("number_of_bands", PyInt 3);
  ("number_of_epochs", PyInt 100);
  ("class_names", PyList [PyStr "person"; PyStr "car"]);
  ("vendor_name", PyStr "NV5");
  ("model_author", PyStr "clees");
  ("model_license", PyStr "Apache 2.0");
  ("model_version", PyInt 1);
  ("model_date", PyStr "2025-01-01")
].

(** [good_record] with [metadata[k] = v]. *)
Definition with_entry (k : string) (v : Value) : dict Value :=
  dict_set k v good_record.

(** [good_record] without its last key, [model_date], and with an empty
    and an ill-typed value left in. *)
Definition no_date_record : dict Value := [
  ("model_type", PyStr "");
  ("model_architecture", PyStr "Custom");
  ("number_of_classes", PyStr "two");
  ("number_of_bands", PyInt 3);
  ("number_of_epochs", PyInt 100);
  ("class_names", PyList [PyStr "person"; PyStr "car"]);
  ("vendor_name", PyStr "NV5");
  ("model_author", PyStr "clees");
  ("model_license", PyStr "Apache 2.0");
  ("model_version", PyInt 1)
].

Definition sample_model : ModelProto :=
  {| other_fields := "graph";
     metadata_props := [{| key := "stale"; value := "1" |}] |}.

(** [json.dumps] on the values of the sample records: integers, strings
    that need no escape, and lists of them. *)
Fixpoint sample_dumps (v : Value) : string :=
  match v with
  | PyBool true => "true"
  | PyBool false => "false"
  | PyInt n => pretty n
  | PyStr s =>
      String (ascii_of_nat 34) s +:+ String (ascii_of_nat 34) EmptyString
  | PyList l =>
      "[" +:+ String.concat ", " (map sample_dumps l) +:+ "]"
  | _ => "null"
  end.

(** A file system with the configuration [config.json] and the model
    [net.onnx] it names. *)
Definition sample_is_file (path : string) : bool :=
  bool_decide (path = "net.onnx").
Definition sample_suffix (path : string) : string :=
  if endswith path ".onnx" then ".onnx" else "".

Definition sample_config : Value :=
  PyDict [("model_uri", PyStr "net.onnx"); ("metadata", PyDict good_record)].

Definition sample_json_load (path : string) : option Value :=
  if decide (path = "config.json") then Some sample_config else None.
Definition sample_onnx_load (path : string) : option ModelProto :=
  if decide (path = "net.onnx") then Some sample_model else None.

(** Plain file names are left as they are by [Path]; every directory of the
    sample file system can be written to, except [locked]. *)
Definition sample_Path (s : string) : string := s.
Definition sample_onnx_save (path : string) (model : ModelProto) : bool :=
  negb (startswith path "locked/").

End SetOnnxMetadata.

(** ** set_onnx_metadata.py: the command line *)

Module SetOnnxMetadataMain.
Import Py SetOnnxMetadata.

(** What reaches the error stream from the command line layer: the two
    texts [main] itself hands to [_error], and the usage error of
    [argparse]. *)
Inductive CliError :=
  | InvalidConfigurationFile (config_uri : string)
  | InvalidConfigurationExtension
  | UsageError.

(** What [main], [argparse] and [_write_config_template] print. *)
Inductive CliNotice :=
  | Help
  | GeneratedTemplate (abspath : string)
  | UpdateAndRun (argv0 abspath : string).

(** The state of the whole process: that of the write pipeline, what the
    command line layer adds to the streams, and the template files
    written, each with the document it was serialised from. *)
Record Process := {
  core : State;
  cli_stderr : list CliError;
  cli_stdout : list CliNotice;
  templates : list (string * Value)
}.

Definition initial_process : Process :=
  {| core := initial_state; cli_stderr := []; cli_stdout := [];
     templates := [] |}.

(** A statement of the write pipeline, run inside the process. *)
Definition in_core {A} (m : M State A) : M Process A :=
  λ p, let (r, s) := m (core p) in
       (r, {| core := s; cli_stderr := cli_stderr p;
              cli_stdout := cli_stdout p; templates := templates p |}).

(** [_error] as [main] calls it. *)
Definition cli_error {A} (message : CliError) : M Process A :=
  modify (λ p, {| core := core p; cli_stderr := cli_stderr p ++ [message];
                  cli_stdout := cli_stdout p; templates := templates p |});;
  sys_exit 1.

Definition print (notice : CliNotice) : M Process unit :=
  modify (λ p, {| core := core p; cli_stderr := cli_stderr p;
                  cli_stdout := cli_stdout p ++ [notice];
                  templates := templates p |}).

(** [args] after [_cli]. *)
Record Namespace := {
  config_uri : option string;
  output_uri : option string;
  make_config : option string
}.

(** How [_cli()] ends for the command line of the process: [parse_args]
    returns the arguments, or prints the help for [-h] and exits with
    status 0, or prints a usage error and exits with status 2. *)
Inductive CommandLine :=
  | Parsed (args : Namespace)
  | HelpRequested
  | Rejected.

Section Collaborators.

Variable json_dumps : Value → string.
Variable json_load : string → option Value.
Variable onnx_load : string → option ModelProto.
Variable is_file : string → bool.
Variable suffix : string → string.
Variable Path : string → string.
Variable onnx_save : string → ModelProto → bool.
Variable abspath : string → string.
Variable argv0 : string.

(** Whether [open(path, 'w')] and the write that follows succeed. *)
Variable writable : string → bool.

(** The document [_write_config_template] serialises. *)
Definition template : Value :=
  PyDict [("model_uri", PyStr "/path/to/model.onnx");
          ("metadata", PyDict (prod_map id PyStr <$> METADATA))].

Definition _write_config_template (template_uri : string) : M Process unit :=
  let template_uri :=
    if bool_decide (suffix template_uri ≠ ".json")
    then template_uri +:+ ".json" else template_uri in
  (if writable template_uri then
     modify (λ p, {| core := core p; cli_stderr := cli_stderr p;
                     cli_stdout := cli_stdout p;
                     templates := templates p ++ [(template_uri, template)] |})
   else raise (OSError template_uri));;
  let abspath := abspath template_uri in
  print (GeneratedTemplate abspath);;
  print (UpdateAndRun argv0 abspath);;
  sys_exit 0.

(** [main] once [_cli()] has returned the arguments. *)
Definition run_with (args : Namespace) : M Process unit :=
  match make_config args with
  | Some make_config => _write_config_template make_config
  | None => mret tt
  end;;
  config_uri ← match config_uri args with
               | None => print Help;; sys_exit 1
               | Some config_uri => mret config_uri
               end;
  (if is_file config_uri then mret tt
   else cli_error (InvalidConfigurationFile config_uri));;
  (if bool_decide (suffix config_uri = ".json") then mret tt
   else cli_error InvalidConfigurationExtension);;
  in_core (_write_model_metadata json_dumps json_load onnx_load is_file suffix
             Path onnx_save config_uri (output_uri args));;
  sys_exit 0.

Definition main (cli : CommandLine) : M Process unit :=
  match cli with
  | Parsed args => run_with args
  | HelpRequested => print Help;; sys_exit 0
  | Rejected =>
      modify (λ p, {| core := core p;
                      cli_stderr := cli_stderr p ++ [UsageError];
                      cli_stdout := cli_stdout p;
                      templates := templates p |});;
      sys_exit 2
  end.

End Collaborators.

End SetOnnxMetadataMain.

(** ** More sample data for the diff tool *)

Module DiffSamples.
Import Py OnnxModelValidator.

Definition image : NodeArg :=
  {| arg_name := "image"; arg_type := "tensor(float)";
     arg_shape := [DimStr "N"; DimInt 3; DimInt 224; DimInt 224] |}.
Definition mask : NodeArg :=
  {| arg_name := "mask"; arg_type := "tensor(bool)";
     arg_shape := [DimStr "N"; DimInt 224; DimInt 224] |}.
Definition scores : NodeArg :=
  {| arg_name := "scores"; arg_type := "tensor(float)";
     arg_shape := [DimStr "N"; DimInt 10] |}.

(** Model A takes a mask that model B does not. *)
Definition mask_world : World :=
  {| is_file := λ _, true;
     abspath := λ p, "/models/" +:+ p;
     InferenceSession := λ model_file,
       if decide (model_file = "a.onnx")
       then Some ([image; mask], [scores])
       else Some ([image], [scores]);
     writable := λ _, true |}.

(** The file of model B is not there. *)
Definition lonely_world : World :=
  {| is_file := λ p, bool_decide (p = "a.onnx");
     abspath := λ p, "/models/" +:+ p;
     InferenceSession := InferenceSession mask_world;
     writable := λ _, true |}.

(** The directory of the report is read-only. *)
Definition readonly_world : World :=
  {| is_file := λ _, true;
     abspath := λ p, "/models/" +:+ p;
     InferenceSession := InferenceSession mask_world;
     writable := λ _, false |}.

Definition both_groups : Namespace :=
  {| arg_model_a := "a.onnx"; arg_model_b := "b.onnx";
     arg_layer_type := "both"; arg_indent := 4;
     arg_output_uri := Some "report" |}.

Definition no_report_path : Namespace :=
  {| arg_model_a := "a.onnx"; arg_model_b := "b.onnx";
     arg_layer_type := "both"; arg_indent := 0;
     arg_output_uri := None |}.

End DiffSamples.

(** ** Notions used to state what the tools guarantee *)

Module Notions.
Import Py SetOnnxMetadata.

(** The entry of the report for a group names the differences and their
    concatenation. *)
Definition group_entry (a_only b_only : list OnnxModelValidator.LayerData)
    : OnnxModelValidator.GroupReport :=
  {| OnnxModelValidator.a_vs_b :=
       "Model A contains one or more layers missing from Model B:";
     OnnxModelValidator.a_layers := a_only;
     OnnxModelValidator.b_vs_a :=
       "Model B contains one or more layers missing from Model A:";
     OnnxModelValidator.b_layers := b_only;
     OnnxModelValidator.symantic_difference := a_only ++ b_only |}.

(** The state after [_error(message)]. *)
Definition with_error (st : State) (message : ErrorMessage) : State :=
  {| stderr := stderr st ++ [message]; stdout := stdout st;
     saved := saved st |}.

(** The messages of [_metadata_validator]. *)
Definition validator_message (message : ErrorMessage) : Prop :=
  match message with
  | MissingConfigurationKeys _ | InvalidEmptyValue _ | MetadataShouldBe _ _
  | ValueMatchesTemplate _ | ClassCountMismatch _ _
  | NonCommercialLicense _ => True
  | _ => False
  end.

(** A statement is tidy when it changes the state only to report one error
    as it exits with status 1. *)
Definition tidy {A} (P : ErrorMessage → Prop) (m : M State A) : Prop :=
  ∀ st,
    match m st with
    | (Normal _, st') => st' = st
    | (SystemExit code, st') =>
        code = 1 ∧ ∃ message, P message ∧ st' = with_error st message
    | (Uncaught _, st') => st' = st
    end.

(** How a run from [st] ends when all it may do before its normal end is
    report one error and exit with status 1; [R] is what holds at the
    normal end. *)
Definition ends_tidily {A} (P : ErrorMessage → Prop) (R : A → State → Prop)
    (st : State) (run : Result A * State) : Prop :=
  match run with
  | (Normal a, st') => R a st'
  | (SystemExit code, st') =>
      code = 1 ∧ ∃ message, P message ∧ st' = with_error st message
  | (Uncaught _, st') => st' = st
  end.

(** The messages of [_write_model_metadata] other than the one for a write
    that left no entry. *)
Definition write_message (message : ErrorMessage) : Prop :=
  ∀ output_uri, message ≠ FailedToWrite output_uri.

(** Sample records: a type error in the second item and an empty value in
    the seventh; a template left in place; a string under a key of the
    user's own. *)
Definition two_faults_record : dict Value :=
  dict_set "vendor_name" (PyStr "")
    (with_entry "model_architecture" (PyInt 5)).

Definition unedited_date_record : dict Value :=
  with_entry "model_date"
    (PyStr "String: Date for which the model is ready, e.g., 2025-01-01").

(** One turn of the loop of [_metadata_validator]. *)
Definition validator_turn (metadata : dict Value) (item : string * Value)
    : M State unit :=
  let '(key, value) := item in
  error_if (is_none_or_empty value) (InvalidEmptyValue key);;
  match dict_get TYPES key with
  | Some cls =>
      v ← getitem metadata key;
      error_if (negb (isinstance v cls)) (MetadataShouldBe key cls)
  | None => mret tt
  end;;
  v ← getitem metadata key;
  match v with
  | PyStr s =>
      template ← getitem METADATA key;
      error_if (contains s template) (ValueMatchesTemplate key)
  | _ => mret tt
  end.

(** What [_metadata_validator] does once the required keys are there. *)
Definition validator_checks (metadata : dict Value) : M State unit :=
  for_each metadata (validator_turn metadata);;
  class_names ← getitem metadata "class_names";
  n_class_names ← len class_names;
  number_of_classes ← getitem metadata "number_of_classes";
  error_if (int_ne n_class_names number_of_classes)
           (ClassCountMismatch n_class_names number_of_classes);;
  model_license ← getitem metadata "model_license";
  lic ← str_upper model_license;
  check_licensing lic.

(** The conditions one turn checks, for every item of the record. *)
Definition turns_pass (metadata : dict Value) : Prop :=
  ∀ key value, (key, value) ∈ metadata →
    is_none_or_empty value = false ∧
    ∃ v, dict_get metadata key = Some v ∧
         (∀ cls, dict_get TYPES key = Some cls → isinstance v cls = true) ∧
         (∀ s, v = PyStr s →
               ∃ t, dict_get METADATA key = Some t ∧ contains s t = false).

(** What a record must satisfy to pass [_metadata_validator]: the required
    keys, no empty value, the declared classes, no template text and no
    string under an unknown key, as many class names as classes, and a
    license the gate lets pass. *)
Record valid_record (metadata : dict Value) : Prop := {
  valid_keys : ∀ k, k ∈ keys METADATA → k ∈ keys metadata;
  valid_filled : ∀ k v, (k, v) ∈ metadata → v ≠ PyNone ∧ v ≠ PyStr "";
  valid_classes : ∀ k cls,
    dict_get TYPES k = Some cls →
    ∃ v, dict_get metadata k = Some v ∧ isinstance v cls = true;
  valid_edited : ∀ k s,
    dict_get metadata k = Some (PyStr s) →
    ∃ t, dict_get METADATA k = Some t ∧ contains s t = false;
  valid_count : ∃ l n,
    dict_get metadata "class_names" = Some (PyList l) ∧
    dict_get metadata "number_of_classes" = Some n ∧
    int_ne (Z.of_nat (length l)) n = false;
  valid_license : ∃ s,
    dict_get metadata "model_license" = Some (PyStr s) ∧
    ¬ denied_first_after_start (upper s)
}.

(** The license text of a record, where it is a string, is ASCII. *)
Definition ascii_license (metadata : dict Value) : Prop :=
  ∀ s, dict_get metadata "model_license" = Some (PyStr s) → isascii s = true.

(** The same for the record of the configuration at a path. *)
Definition ascii_config (json_load : string → option Value)
    (config_uri : string) : Prop :=
  ∀ data metadata,
    json_load config_uri = Some (PyDict data) →
    dict_get data "metadata" = Some (PyDict metadata) →
    ascii_license metadata.

(** What holds when [_write_model_metadata] returns: the configuration was
    in order, the record valid, and one model was saved. *)
Definition written_from (json_dumps : Value → string)
    (json_load : string → option Value)
    (onnx_load : string → option ModelProto) (is_file : string → bool)
    (suffix : string → string) (Path : string → string)
    (onnx_save : string → ModelProto → bool)
    (config_uri : string) (output_uri : option string)
    (st st' : State) : Prop :=
  ∃ data uri metadata model,
    let model_uri := Path uri in
    let output_uri := default model_uri output_uri in
    let model' := _add_metadata json_dumps model metadata in
    json_load config_uri = Some (PyDict data) ∧
    dict_get data "model_uri" = Some (PyStr uri) ∧
    is_file model_uri = true ∧
    suffix model_uri = ".onnx" ∧
    dict_get data "metadata" = Some (PyDict metadata) ∧
    valid_record metadata ∧
    onnx_load model_uri = Some model ∧
    onnx_save output_uri model' = true ∧
    st' = {| stderr := stderr st;
             stdout := stdout st ++ [SuccessfullyWrote output_uri];
             saved := saved st ++ [(output_uri, model')] |}.

(** A working directory that holds [config.json] and [net.onnx], and a
    command line that asks for the metadata of [config.json] to be
    written. *)
Definition sample_files (path : string) : bool :=
  bool_decide (path ∈ ["config.json"; "net.onnx"]).
Definition sample_ext (path : string) : string :=
  if endswith path ".json" then ".json"
  else if endswith path ".onnx" then ".onnx" else "".
Definition sample_abspath (path : string) : string := "/work/" +:+ path.
Definition sample_writable (path : string) : bool := true.
Definition sample_cli : SetOnnxMetadataMain.CommandLine :=
  SetOnnxMetadataMain.Parsed
    {| SetOnnxMetadataMain.config_uri := Some "config.json";
       SetOnnxMetadataMain.output_uri := None;
       SetOnnxMetadataMain.make_config := None |}.

(** A configuration whose record the validator turns away. *)
Definition faulty_config : Value :=
  PyDict [("model_uri", PyStr "net.onnx");
          ("metadata", PyDict two_faults_record)].

End Notions.

(** ** Facts about the run-time model *)

Module PyFacts.
Import Py.

(** *** Statements *)

Lemma bind_run {S A B} (m : M S A) (k : A → M S B) st a st' :
  m st = (Normal a, st') → (m ≫= k) st = k a st'.
Proof. intros H. unfold mbind, M_bind, bind. by rewrite H. Qed.

(** One turn of a [for] loop that ends normally, leaving the state alone. *)
Lemma for_each_step {S A} (x : A) (xs : list A) (body : A → M S unit) st :
  body x st = (Normal tt, st) →
  for_each (x :: xs) body st = for_each xs body st.
Proof. intros H. simpl. by erewrite bind_run. Qed.

(** *** Dictionaries *)

Lemma dict_get_set {V} (d : dict V) k v : dict_get (dict_set k v d) k = Some v.
Proof.
  induction d as [|[k' v'] d IH]; simpl.
  - by rewrite decide_True.
  - destruct (decide (k' = k)) as [->|Hne]; simpl.
    + by rewrite decide_True.
    + by rewrite decide_False.
Qed.

Lemma dict_get_keys {V} (d : dict V) k v : dict_get d k = Some v → k ∈ keys d.
Proof.
  induction d as [|[k' v'] d IH]; simpl; [done|].
  destruct (decide (k' = k)) as [->|Hne].
  - intros _. left.
  - intros H. right. by apply IH.
Qed.

(** *** [str.find] *)

Lemma append_cons c s t : String c s +:+ t = String c (s +:+ t).
Proof. reflexivity. Qed.

Lemma startswith_spec s : ∀ sub,
  startswith s sub = true ↔ ∃ post, s = sub +:+ post.
Proof.
  induction s as [|d s IH]; intros [|c sub]; simpl.
  - split; [by exists ""|done].
  - split; [done|]. by intros [post [=]].
  - split; [by exists (String d s)|done].
  - destruct (decide (c = d)) as [->|Hne].
    + rewrite IH.
      split; intros [post H]; exists post; rewrite append_cons in *; congruence.
    + split; [done|]. intros [post H]. rewrite append_cons in H. congruence.
Qed.

Lemma occurs_at_0 s sub : occurs_at s sub 0 ↔ startswith s sub = true.
Proof.
  rewrite startswith_spec. split.
  - intros ([|c pre] & post & -> & Hlen); [by exists post|done].
  - intros [post ->]. by exists "", post.
Qed.

Lemma occurs_at_S c s sub i :
  occurs_at (String c s) sub (S i) ↔ occurs_at s sub i.
Proof.
  split.
  - intros ([|c' pre] & post & Heq & Hlen); [done|].
    simpl in *. injection Heq as -> ->. injection Hlen as <-.
    by exists pre, post.
  - intros (pre & post & -> & <-). by exists (String c pre), post.
Qed.

Lemma occurs_at_empty sub i : occurs_at "" sub (S i) → False.
Proof. by intros ([|c pre] & post & Heq & Hlen). Qed.

Lemma find_from_unfold s sub k :
  find_from s sub k =
    if startswith s sub then k
    else match s with
         | "" => -1
         | String _ s' => find_from s' sub (k + 1)
         end.
Proof. by destruct s. Qed.

(** [find_from] gives the leftmost occurrence, counted from [k], or -1
    when there is none. *)
Lemma find_from_cases s : ∀ sub k,
  (find_from s sub k = -1 ∧ ∀ i, ¬ occurs_at s sub i) ∨
  (∃ i, find_from s sub k = k + Z.of_nat i ∧ first_occurrence s sub i).
Proof.
  induction s as [|c s IH]; intros sub k; rewrite find_from_unfold.
  - destruct (startswith "" sub) eqn:Hs.
    + right. exists 0%nat. split; [lia|]. split; [by apply occurs_at_0|lia].
    + left. split; [done|]. intros [|i] H.
      * apply occurs_at_0 in H. congruence.
      * by apply occurs_at_empty in H.
  - destruct (startswith (String c s) sub) eqn:Hs.
    + right. exists 0%nat. split; [lia|]. split; [by apply occurs_at_0|lia].
    + destruct (IH sub (k + 1)) as [[Hf Hno]|(i & Hf & Hocc & Hmin)].
      * left. split; [done|]. intros [|i] H.
        -- apply occurs_at_0 in H. congruence.
        -- apply occurs_at_S in H. by apply (Hno i).
      * right. exists (S i). split; [lia|]. split; [by apply occurs_at_S|].
        intros [|j] Hj H.
        -- apply occurs_at_0 in H. congruence.
        -- apply occurs_at_S in H. apply (Hmin j); [lia|done].
Qed.

Lemma first_occurrence_unique s sub i j :
  first_occurrence s sub i → first_occurrence s sub j → i = j.
Proof.
  intros [Hi Hmi] [Hj Hmj].
  destruct (lt_eq_lt_dec i j) as [[Hlt| ->]|Hlt]; [|done|].
  - by destruct (Hmj i).
  - by destruct (Hmi j).
Qed.

(** [s.find(sub)] is the position of the leftmost occurrence. *)
Lemma find_first_occurrence s sub i :
  first_occurrence s sub i → find s sub = Z.of_nat i.
Proof.
  intros Hi. unfold find.
  destruct (find_from_cases s sub 0) as [[_ Hno]|(j & Hf & Hj)].
  - destruct Hi as [Hi _]. by destruct (Hno i).
  - rewrite Hf, (first_occurrence_unique _ _ _ _ Hi Hj). lia.
Qed.

Lemma find_positive s sub :
  0 < find s sub ↔ ∃ i, (0 < i)%nat ∧ first_occurrence s sub i.
Proof.
  split.
  - unfold find. destruct (find_from_cases s sub 0) as [[Hf _]|(i & Hf & Hi)].
    + lia.
    + intros Hpos. exists i. split; [lia|done].
  - intros (i & Hpos & Hi). rewrite (find_first_occurrence _ _ _ Hi). lia.
Qed.

End PyFacts.

(** ** Properties of the diff tool *)

Module DiffTheory.
Import Py PyFacts OnnxModelValidator.

(** *** The one-sided differences *)

Lemma filter_not_in_nil (a b : list LayerData) :
  filter (λ item, item ∉ b) a = [] ↔ a ⊆ b.
Proof.
  induction a as [|x a IH].
  - split; [intros _ y Hy; inversion Hy | done].
  - rewrite filter_cons. destruct (decide (x ∉ b)) as [Hx|Hx].
    + split; [done|]. intros H. exfalso. apply Hx, H. left.
    + apply dec_stable in Hx. rewrite IH. split.
      * intros H y Hy. apply elem_of_cons in Hy as [->|Hy]; auto.
      * intros H y Hy. apply H. by right.
Qed.

Lemma a_minus_b_nil a b : a_minus_b a b = [] ↔ a ⊆ b.
Proof. apply filter_not_in_nil. Qed.

Lemma b_minus_a_nil a b : b_minus_a a b = [] ↔ b ⊆ a.
Proof. apply filter_not_in_nil. Qed.

(** *** What [parse_layers] builds *)

Lemma parse_layers_from_spec layers : ∀ idx container group l,
  container !! group = Some l →
  parse_layers_from idx container layers group =
    Normal (<[group := l ++ descriptors idx layers]> container).
Proof.
  induction layers as [|layer layers IH]; intros idx container group l Hl; simpl.
  - by rewrite app_nil_r, insert_id.
  - rewrite Hl. erewrite IH by apply lookup_insert_eq.
    by rewrite insert_insert_eq, <- app_assoc.
Qed.

Lemma descriptors_lookup layers : ∀ idx (i : nat) x,
  descriptors idx layers !! i = Some x → layer_id x = idx + Z.of_nat i.
Proof.
  induction layers as [|layer layers IH]; intros idx i x; simpl; [done|].
  destruct i as [|i]; simpl.
  - intros [= <-]. simpl. lia.
  - intros H. apply IH in H. lia.
Qed.

Lemma descriptors_positional layers : positional (descriptors 0 layers).
Proof. intros i x H. by apply descriptors_lookup in H. Qed.

(** [get_in_out_layers] returns whenever the session opens, with the
    enumerated inputs and outputs. *)
Lemma get_in_out_layers_spec w model_file input_layers output_layers :
  InferenceSession w model_file = Some (input_layers, output_layers) →
  ∃ layer_data,
    get_in_out_layers w model_file = Normal layer_data ∧
    layer_data !! "inputs" = Some (descriptors 0 input_layers) ∧
    layer_data !! "outputs" = Some (descriptors 0 output_layers).
Proof.
  intros Hs. unfold get_in_out_layers, parse_layers. rewrite Hs.
  erewrite parse_layers_from_spec by done.
  erewrite parse_layers_from_spec by done.
  eexists. split; [done|]. split.
  - rewrite lookup_insert_ne by done. by rewrite lookup_insert_eq.
  - by rewrite lookup_insert_eq.
Qed.

(** Every list [get_in_out_layers] hands on is positional. *)
Lemma get_in_out_layers_positional w model_file layer_data group l :
  get_in_out_layers w model_file = Normal layer_data →
  layer_data !! group = Some l → positional l.
Proof.
  intros Hd Hl. unfold get_in_out_layers, parse_layers in Hd.
  destruct (InferenceSession w model_file) as [[ins outs]|]; [|done].
  erewrite parse_layers_from_spec in Hd by done.
  erewrite parse_layers_from_spec in Hd by done.
  injection Hd as <-.
  destruct (decide (group = "outputs")) as [->|Ho].
  { rewrite lookup_insert_eq in Hl. injection Hl as <-.
    apply descriptors_positional. }
  rewrite lookup_insert_ne in Hl by done.
  destruct (decide (group = "inputs")) as [->|Hi].
  { rewrite lookup_insert_eq in Hl. injection Hl as <-.
    apply descriptors_positional. }
  by rewrite !lookup_insert_ne in Hl by done.
Qed.

Lemma positional_lookup a b i x :
  positional a → positional b → a ⊆ b → a !! i = Some x → b !! i = Some x.
Proof.
  intros Ha Hb Hab Hi.
  assert (x ∈ b) as Hx by (eapply Hab, list_elem_of_lookup_2, Hi).
  apply list_elem_of_lookup_1 in Hx as [j Hj].
  apply Ha in Hi as Hi'. apply Hb in Hj as Hj'.
  assert (i = j) as -> by lia. done.
Qed.

(** Two positional lists with the same elements are the same list. *)
Lemma positional_same_set a b :
  positional a → positional b → a ⊆ b → b ⊆ a → a = b.
Proof.
  intros Ha Hb Hab Hba. apply list_eq. intros i.
  destruct (a !! i) as [x|] eqn:Hx.
  - symmetry. by apply (positional_lookup a b).
  - destruct (b !! i) as [y|] eqn:Hy; [|done].
    assert (a !! i = Some y) by (by apply (positional_lookup b a)).
    congruence.
Qed.

(** *** One call of [diff_models] *)

Lemma diff_models_run a b group st m c :
  models (REPORT st) = Some m → compatability m = Some c →
  diff_models a b group st =
    if decide (a = b) then
      (Normal 0,
       {| REPORT :=
            {| models := Some {| model_a := model_a m; model_b := model_b m;
                                 compatability := Some (dict_set group true c) |};
               groups := groups (REPORT st);
               exit_status := exit_status (REPORT st) |};
          written := written st |})
    else
      (Normal 1,
       {| REPORT :=
            {| models := Some {| model_a := model_a m; model_b := model_b m;
                                 compatability := Some (dict_set group false c) |};
               groups :=
                 dict_set group
                   {| a_vs_b := "Model A contains one or more layers missing from Model B:";
                      a_layers := a_minus_b a b;
                      b_vs_a := "Model B contains one or more layers missing from Model A:";
                      b_layers := b_minus_a a b;
                      symantic_difference := a_minus_b a b ++ b_minus_a a b |}
                   (groups (REPORT st));
               exit_status := exit_status (REPORT st) |};
          written := written st |}).
Proof.
  intros Hm Hc. unfold diff_models.
  destruct (decide (a = b));
    unfold mbind, M_bind, bind, set_compatability, mbind, M_bind, bind, get;
    simpl; rewrite Hm, Hc; reflexivity.
Qed.

Lemma ready_inv st :
  ready st → ∃ m c, models (REPORT st) = Some m ∧ compatability m = Some c.
Proof.
  unfold ready, compatability_of. intros [c Hc].
  destruct (models (REPORT st)) as [m|]; [|done]. by exists m, c.
Qed.

(** The call returns, with status 0 and the flag set when the lists are
    equal, and with status 1, the flag cleared and the differences reported
    when they are not. *)
Lemma diff_models_outcome a b group st :
  ready st →
  ∃ st',
    diff_models a b group st = (Normal (if decide (a = b) then 0 else 1), st') ∧
    compatible st' group = Some (bool_decide (a = b)) ∧
    (a ≠ b →
       a_layers <$> reported st' group = Some (a_minus_b a b) ∧
       b_layers <$> reported st' group = Some (b_minus_a a b)).
Proof.
  intros (m & c & Hm & Hc)%ready_inv.
  rewrite (diff_models_run a b group st m c Hm Hc).
  destruct (decide (a = b)) as [Heq|Hne]; eexists; (split; [reflexivity|]).
  - split; [|done]. unfold compatible, compatability_of. simpl.
    by rewrite dict_get_set, bool_decide_eq_true_2.
  - split.
    + unfold compatible, compatability_of. simpl.
      by rewrite dict_get_set, bool_decide_eq_false_2.
    + intros _. unfold reported. simpl. by rewrite dict_get_set.
Qed.

(** *** Comparing a model with itself *)

(** C8: reflexivity of [diff_models].  Comparing a sequence with itself
    returns status 0, reports the group compatible, and both one-sided
    differences are empty. *)
Theorem diff_models_reflexive (a : list LayerData) (group : string) (st : State) :
  ready st →
  ∃ st',
    diff_models a a group st = (Normal 0, st') ∧
    compatible st' group = Some true ∧
    a_minus_b a a = [] ∧ b_minus_a a a = [].
Proof.
  intros Hst. destruct (diff_models_outcome a a group st Hst) as (st' & Hrun & Hc & _).
  rewrite decide_True in Hrun by done. rewrite bool_decide_eq_true_2 in Hc by done.
  exists st'. repeat split; [done..| |].
  - by apply a_minus_b_nil.
  - by apply b_minus_a_nil.
Qed.

Lemma diff_models_reflexive_witness :
  ∃ st',
    diff_models [layer_x; layer_y] [layer_x; layer_y] "Inputs" ready_state
      = (Normal 0, st') ∧
    compatible st' "Inputs" = Some true ∧
    a_minus_b [layer_x; layer_y] [layer_x; layer_y] = [] ∧
    b_minus_a [layer_x; layer_y] [layer_x; layer_y] = [].
Proof.
  apply (diff_models_reflexive [layer_x; layer_y] "Inputs" ready_state).
  unfold ready. vm_compute. eauto.
Defined.

(** *** The same descriptors in another order *)

(** C3: when [a] and [b] hold the same descriptors with the same
    multiplicities but are not the same sequence, [diff_models] returns
    status 1 and reports the group incompatible, while both one-sided
    differences, as computed and as written to the report, are empty. *)
Theorem diff_models_reordered (a b : list LayerData) (group : string) (st : State) :
  ready st → a ≡ₚ b → a ≠ b →
  ∃ st',
    diff_models a b group st = (Normal 1, st') ∧
    compatible st' group = Some false ∧
    a_minus_b a b = [] ∧ b_minus_a a b = [] ∧
    a_layers <$> reported st' group = Some [] ∧
    b_layers <$> reported st' group = Some [].
Proof.
  intros Hst Hperm Hne.
  destruct (diff_models_outcome a b group st Hst) as (st' & Hrun & Hc & Hrep).
  rewrite decide_False in Hrun by done. rewrite bool_decide_eq_false_2 in Hc by done.
  destruct (Hrep Hne) as [Ha Hb].
  assert (a_minus_b a b = []) as Hab.
  { apply a_minus_b_nil. intros x Hx. by rewrite <- Hperm. }
  assert (b_minus_a a b = []) as Hba.
  { apply b_minus_a_nil. intros x Hx. by rewrite Hperm. }
  exists st'. rewrite Hab in Ha. rewrite Hba in Hb. done.
Qed.

Lemma diff_models_reordered_witness :
  ∃ st',
    diff_models [layer_x; layer_y] [layer_y; layer_x] "Inputs" ready_state
      = (Normal 1, st') ∧
    compatible st' "Inputs" = Some false ∧
    a_minus_b [layer_x; layer_y] [layer_y; layer_x] = [] ∧
    b_minus_a [layer_x; layer_y] [layer_y; layer_x] = [] ∧
    a_layers <$> reported st' "Inputs" = Some [] ∧
    b_layers <$> reported st' "Inputs" = Some [].
Proof.
  apply (diff_models_reordered [layer_x; layer_y] [layer_y; layer_x]
           "Inputs" ready_state).
  - unfold ready. vm_compute. eauto.
  - apply Permutation_swap.
  - discriminate.
Defined.


(** *** The flag and the differences *)

(** Equal sequences have no one-sided difference, whatever they hold. *)
Lemma compatible_no_difference a b :
  a = b → a_minus_b a b = [] ∧ b_minus_a a b = [].
Proof. intros ->. split; [by apply a_minus_b_nil | by apply b_minus_a_nil]. Qed.

(** For positional sequences the converse holds too. *)
Lemma positional_no_difference a b :
  positional a → positional b →
  a_minus_b a b = [] → b_minus_a a b = [] → a = b.
Proof.
  intros Ha Hb Hab%a_minus_b_nil Hba%b_minus_a_nil.
  by apply positional_same_set.
Qed.

(** C2, as the code has it.  The call returns; a group reported compatible
    has both one-sided differences empty; and for sequences that
    [get_in_out_layers] built, whose descriptors carry their position as
    ['id'], empty differences make the group compatible. *)
Theorem diff_models_compatible_iff_no_difference
    (a b : list LayerData) (group : string) (st : State) :
  ready st →
  ∃ status st',
    diff_models a b group st = (Normal status, st') ∧
    (compatible st' group = Some true →
       a_minus_b a b = [] ∧ b_minus_a a b = []) ∧
    (∀ w file_a file_b layers_a layers_b key,
       get_in_out_layers w file_a = Normal layers_a →
       get_in_out_layers w file_b = Normal layers_b →
       layers_a !! key = Some a → layers_b !! key = Some b →
       a_minus_b a b = [] ∧ b_minus_a a b = [] →
       compatible st' group = Some true).
Proof.
  intros Hst.
  destruct (diff_models_outcome a b group st Hst) as (st' & Hrun & Hc & _).
  exists (if decide (a = b) then 0 else 1), st'.
  split; [done|]. rewrite Hc. split.
  - intros [= Heq%bool_decide_eq_true]. by apply compatible_no_difference.
  - intros w fa fb la lb key Hla Hlb Ha Hb [Hab Hba].
    rewrite bool_decide_eq_true_2; [done|].
    apply positional_no_difference; [|  |done..].
    + exact (get_in_out_layers_positional w fa la key a Hla Ha).
    + exact (get_in_out_layers_positional w fb lb key b Hlb Hb).
Qed.

Lemma diff_models_compatible_iff_no_difference_witness :
  ∃ layers a st',
    get_in_out_layers twin_world "a.onnx" = Normal layers ∧
    layers !! "inputs" = Some a ∧
    (diff_models a a "Inputs" ready_state).2 = st' ∧
    (compatible st' "Inputs" = Some true ↔
       a_minus_b a a = [] ∧ b_minus_a a a = []).
Proof.
  destruct (get_in_out_layers_spec twin_world "a.onnx" _ _ eq_refl)
    as (layers & Hl & Hi & _).
  set (a := descriptors 0 _) in Hi.
  assert (ready ready_state) as Hr by (unfold ready; vm_compute; eauto).
  destruct (diff_models_compatible_iff_no_difference a a "Inputs" ready_state Hr)
    as (status & st' & Hrun & Hfwd & Hbwd).
  exists layers, a, st'. split; [done|]. split; [exact Hi|].
  split; [by rewrite Hrun|]. split; [exact Hfwd|].
  by apply (Hbwd twin_world "a.onnx" "a.onnx" layers layers "inputs").
Defined.

(** The claim for arbitrary sequences fails on a reordering: the flag is
    not set although both differences are empty. *)
Lemma compatible_iff_no_difference_fails :
  let a := [layer_x; layer_y] in
  let b := [layer_y; layer_x] in
  ¬ (compatible (diff_models a b "Inputs" ready_state).2 "Inputs" = Some true ↔
     a_minus_b a b = [] ∧ b_minus_a a b = []).
Proof.
  intros a b [_ H].
  assert (a_minus_b a b = [] ∧ b_minus_a a b = []) as Hd by (by vm_compute).
  apply H in Hd. vm_compute in Hd. discriminate.
Qed.


(** *** The exit status of [main] *)

Ltac run_step :=
  unfold mbind, M_bind, bind, load_local, set_report, modify, raise,
         mret, M_ret, ret, lift, layers_of, get, sys_exit; simpl.

Section Main.

Variables (w : World) (args : Namespace) (st : State).
Variables ia oa ib ob : list NodeArg.
Hypothesis file_a : is_file w (arg_model_a args) = true.
Hypothesis file_b : is_file w (arg_model_b args) = true.
Hypothesis session_a : InferenceSession w (arg_model_a args) = Some (ia, oa).
Hypothesis session_b : InferenceSession w (arg_model_b args) = Some (ib, ob).

(** With only the inputs requested, [output_status] is never assigned and
    the sum at the end of [main] raises, whatever the models hold. *)
Lemma main_inputs_only :
  arg_layer_type args = "inputs" →
  (main w args st).1 = Uncaught (UnboundLocalError "output_status").
Proof.
  intros Hty.
  destruct (get_in_out_layers_spec _ _ _ _ session_a) as (la & Hla & Hlai & _).
  destruct (get_in_out_layers_spec _ _ _ _ session_b) as (lb & Hlb & Hlbi & _).
  unfold main. rewrite Hty, file_a, file_b. run_step.
  rewrite Hla, Hlb. simpl. rewrite Hlai, Hlbi. simpl.
  erewrite diff_models_run by reflexivity.
  by destruct (decide (descriptors 0 ia = descriptors 0 ib)).
Qed.

(** With only the outputs requested it is [input_status] that is missing. *)
Lemma main_outputs_only :
  arg_layer_type args = "outputs" →
  (main w args st).1 = Uncaught (UnboundLocalError "input_status").
Proof.
  intros Hty.
  destruct (get_in_out_layers_spec _ _ _ _ session_a) as (la & Hla & _ & Hlao).
  destruct (get_in_out_layers_spec _ _ _ _ session_b) as (lb & Hlb & _ & Hlbo).
  unfold main. rewrite Hty, file_a, file_b. run_step.
  rewrite Hla, Hlb. simpl. rewrite Hlao, Hlbo. simpl.
  erewrite diff_models_run by reflexivity.
  by destruct (decide (descriptors 0 oa = descriptors 0 ob)).
Qed.

(** With both groups requested and a path at which the report can be
    written, the run ends in [sys.exit], with status 0 exactly when both
    groups are compatible. *)
Lemma main_both_exit_status :
  arg_layer_type args = "both" →
  is_Some (arg_output_uri args) →
  (∀ path, writable w path = true) →
  ∃ status,
    (main w args st).1 = SystemExit status ∧
    (status = 0 ∨ status = 1) ∧
    (status = 0 ↔
       descriptors 0 ia = descriptors 0 ib ∧
       descriptors 0 oa = descriptors 0 ob) ∧
    compatible (main w args st).2 "Inputs"
      = Some (bool_decide (descriptors 0 ia = descriptors 0 ib)) ∧
    compatible (main w args st).2 "Outputs"
      = Some (bool_decide (descriptors 0 oa = descriptors 0 ob)).
Proof.
  intros Hty [out Hout] Hwritable.
  destruct (get_in_out_layers_spec _ _ _ _ session_a) as (la & Hla & Hlai & Hlao).
  destruct (get_in_out_layers_spec _ _ _ _ session_b) as (lb & Hlb & Hlbi & Hlbo).
  unfold main. rewrite Hty, file_a, file_b, Hout. run_step.
  rewrite Hla, Hlb. simpl. rewrite Hlai, Hlbi. simpl.
  erewrite diff_models_run by reflexivity.
  destruct (decide (descriptors 0 ia = descriptors 0 ib)) as [Hi|Hi];
    simpl; rewrite Hlao, Hlbo; simpl;
    (erewrite diff_models_run by reflexivity);
    destruct (decide (descriptors 0 oa = descriptors 0 ob)) as [Ho|Ho];
    simpl; destruct (endswith out ".json"); rewrite Hwritable; simpl.
  all: eexists; (split; [reflexivity|]);
    unfold EXIT_STATUS_SUCCESS, EXIT_STATUS_ERROR, compatible, compatability_of;
    simpl;
    (split; [by (left + right)|]);
    (split;
     [split; [intros ?; first [by split | lia]
             | intros [? ?]; first [reflexivity | contradiction]]|]);
    split; f_equal; symmetry;
    first [by apply bool_decide_eq_true_2 | by apply bool_decide_eq_false_2].
Qed.

End Main.

(** C1 fails for a single group.  For two files holding the same model and
    [--layer_type inputs], the only requested group is compatible, yet
    [main] ends in an uncaught [UnboundLocalError] before the report is
    written: the process status is 1 and not 0.  The same happens with
    [--layer_type outputs]. *)
Theorem main_single_group_exit_status :
  let run := main twin_world inputs_only initial_state in
  let run' := main twin_world outputs_only initial_state in
  (compatible run.2 "Inputs" = Some true ∧
   compatible run.2 "Outputs" = None ∧
   run.1 = Uncaught (UnboundLocalError "output_status") ∧
   process_status run.1 = 1 ∧
   written run.2 = []) ∧
  (compatible run'.2 "Outputs" = Some true ∧
   compatible run'.2 "Inputs" = None ∧
   run'.1 = Uncaught (UnboundLocalError "input_status") ∧
   process_status run'.1 = 1 ∧
   written run'.2 = []).
Proof. by vm_compute. Qed.

End DiffTheory.

(** ** Properties of the metadata tool *)

Module MetadataTheory.
Import Py PyFacts SetOnnxMetadata.

(** *** [_add_metadata] *)

Section AddMetadata.

Variable json_dumps : Value → string.

Lemma fold_add_entry (dict_data : dict Value) : ∀ model,
  fold_left (add_entry json_dumps) dict_data model =
    {| other_fields := other_fields model;
       metadata_props := metadata_props model ++ (entry_of json_dumps <$> dict_data) |}.
Proof.
  induction dict_data as [|item dict_data IH]; intros model; simpl.
  - rewrite app_nil_r. by destruct model.
  - rewrite IH. simpl. by rewrite <- app_assoc.
Qed.

Lemma add_metadata_spec model dict_data :
  _add_metadata json_dumps model dict_data =
    {| other_fields := other_fields model;
       metadata_props := entry_of json_dumps <$> dict_data |}.
Proof. unfold _add_metadata. by rewrite fold_add_entry. Qed.

Lemma add_metadata_count model dict_data :
  length (metadata_props (_add_metadata json_dumps model dict_data))
    = length dict_data.
Proof. rewrite add_metadata_spec. simpl. by rewrite length_fmap. Qed.

End AddMetadata.

(** C9: after [_add_metadata] the entries of the model are those of the
    record, one per item and in its order, each with its key and the JSON
    text of its value; the keys of the entries are the keys of the record;
    nothing of the earlier entries remains, so two models given the same
    record end with the same entries; and a second application with the
    same record changes nothing. *)
Theorem add_metadata_replaces_entries
    (json_dumps : Value → string) (model : ModelProto) (dict_data : dict Value) :
  let model' := _add_metadata json_dumps model dict_data in
  metadata_props model' = entry_of json_dumps <$> dict_data ∧
  key <$> metadata_props model' = keys dict_data ∧
  length (metadata_props model') = length dict_data ∧
  other_fields model' = other_fields model ∧
  (∀ other : ModelProto,
     metadata_props (_add_metadata json_dumps other dict_data)
       = metadata_props model') ∧
  _add_metadata json_dumps model' dict_data = model'.
Proof.
  simpl. rewrite !add_metadata_spec. simpl.
  split; [done|]. split.
  { unfold keys. rewrite <- list_fmap_compose. done. }
  split; [by rewrite length_fmap|]. split; [done|]. split; [|done].
  intros other. by rewrite add_metadata_spec.
Qed.


(** *** The order of the checks *)

Lemma required_keys_subset (metadata : dict Value) :
  (list_to_set (keys METADATA) : gset string) ⊆ list_to_set (keys metadata) ↔
  ∀ k, k ∈ keys METADATA → k ∈ keys metadata.
Proof.
  split.
  - intros H k Hk. apply (elem_of_list_to_set (C := gset string)).
    apply H. by apply elem_of_list_to_set.
  - intros H k Hk%elem_of_list_to_set. apply elem_of_list_to_set. auto.
Qed.

(** C7: a record that lacks a required key ends the validator in the
    missing-key error, with the set of missing keys and nothing else on
    the error stream, whatever values the record holds: no later check is
    reached. *)
Theorem missing_key_fails_first (metadata : dict Value) (st : State) :
  (∃ k, k ∈ keys METADATA ∧ k ∉ keys metadata) →
  let diff : gset string :=
    list_to_set (keys METADATA) ∖ list_to_set (keys metadata) in
  rejected_with (MissingConfigurationKeys diff) st
                (_metadata_validator metadata st) ∧
  diff ≠ ∅.
Proof.
  intros (k & Hk & Hnk). cbv zeta. split.
  - unfold rejected_with, _metadata_validator.
    rewrite decide_False.
    + reflexivity.
    + rewrite required_keys_subset. intros H. apply Hnk, H, Hk.
  - intros Hempty. apply (not_elem_of_empty (C := gset string) k).
    rewrite <- Hempty. apply elem_of_difference.
    split; [by apply elem_of_list_to_set|].
    by rewrite elem_of_list_to_set.
Qed.

Lemma missing_key_fails_first_witness :
  rejected_with
    (MissingConfigurationKeys
       (list_to_set (keys METADATA) ∖ list_to_set (keys no_date_record)))
    initial_state (_metadata_validator no_date_record initial_state) ∧
  (list_to_set (keys METADATA) ∖ list_to_set (keys no_date_record) : gset string)
    ≠ ∅.
Proof.
  apply (missing_key_fails_first no_date_record initial_state).
  exists "model_date". split.
  - vm_compute. set_solver.
  - vm_compute. intros H. 
    repeat (apply elem_of_cons in H as [H|H]; [discriminate|]).
    inversion H.
Defined.


(** *** Accepted records and the write *)

Lemma METADATA_keys_NoDup : NoDup (keys METADATA).
Proof. apply (bool_decide_unpack _). by vm_compute. Qed.

(** A record the validator accepts holds every required key. *)
Lemma accepted_has_required_keys (metadata : dict Value) st st' :
  _metadata_validator metadata st = (Normal tt, st') →
  ∀ k, k ∈ keys METADATA → k ∈ keys metadata.
Proof.
  intros Hrun. apply required_keys_subset.
  unfold _metadata_validator in Hrun.
  destruct (decide ((list_to_set (keys METADATA) : gset string)
                      ⊆ list_to_set (keys metadata))) as [Hsub|Hsub]; [done|].
  discriminate Hrun.
Qed.

Lemma accepted_key_count (metadata : dict Value) st st' :
  _metadata_validator metadata st = (Normal tt, st') →
  (11 ≤ length metadata)%nat.
Proof.
  intros Hrun.
  assert (keys METADATA ⊆+ keys metadata) as Hsub.
  { apply NoDup_submseteq; [apply METADATA_keys_NoDup|].
    by eapply accepted_has_required_keys. }
  apply submseteq_length in Hsub.
  unfold keys in Hsub. rewrite !length_fmap in Hsub. exact Hsub.
Qed.

Lemma py_in_dict {S} name d v (st : S) :
  dict_get d name = Some v → py_in name (PyDict d) st = (Normal true, st).
Proof.
  intros H%dict_get_keys. unfold py_in.
  by rewrite bool_decide_eq_true_2.
Qed.

Lemma subscript_dict {S} name d v (st : S) :
  dict_get d name = Some v → subscript (PyDict d) name st = (Normal v, st).
Proof. intros H. unfold subscript, getitem. by rewrite H. Qed.

Section Write.

Variable json_dumps : Value → string.
Variable json_load : string → option Value.
Variable onnx_load : string → option ModelProto.
Variable is_file : string → bool.
Variable suffix : string → string.
Variable Path : string → string.
Variable onnx_save : string → ModelProto → bool.

(** A run of [_write_model_metadata] that reaches the validator with a
    record it accepts goes on to [onnx.save]: it saves the model and
    reports success, or ends in the exception of the save. *)
Lemma write_accepted config_uri output_uri data uri metadata model st st' :
  json_load config_uri = Some (PyDict data) →
  dict_get data "model_uri" = Some (PyStr uri) →
  is_file (Path uri) = true →
  suffix (Path uri) = ".onnx" →
  dict_get data "metadata" = Some (PyDict metadata) →
  _metadata_validator metadata st = (Normal tt, st') →
  onnx_load (Path uri) = Some model →
  _write_model_metadata json_dumps json_load onnx_load is_file suffix
      Path onnx_save config_uri output_uri st =
    if onnx_save (default (Path uri) output_uri)
                 (_add_metadata json_dumps model metadata)
    then
      (Normal tt,
       {| stderr := stderr st';
          stdout := stdout st' ++
            [SuccessfullyWrote (default (Path uri) output_uri)];
          saved := saved st' ++
            [(default (Path uri) output_uri,
              _add_metadata json_dumps model metadata)] |})
    else (Uncaught (LibraryError "onnx.save"), st').
Proof.
  intros Hload Huri Hfile Hsuf Hmeta Hvalid Honnx.
  unfold _write_model_metadata. rewrite Hload.
  erewrite bind_run by reflexivity.
  erewrite bind_run by (eapply py_in_dict, Huri).
  erewrite bind_run by reflexivity.
  erewrite bind_run by (eapply subscript_dict, Huri).
  erewrite bind_run by reflexivity.
  rewrite Hfile, Hsuf.
  erewrite bind_run by reflexivity.
  erewrite bind_run by reflexivity.
  erewrite bind_run by (eapply py_in_dict, Hmeta).
  erewrite bind_run by reflexivity.
  erewrite bind_run by (eapply subscript_dict, Hmeta).
  cbv beta iota.
  erewrite bind_run by exact Hvalid.
  rewrite Honnx.
  erewrite bind_run by reflexivity.
  rewrite bool_decide_eq_true_2.
  - by destruct (onnx_save _ _).
  - rewrite add_metadata_count. apply accepted_key_count in Hvalid. lia.
Qed.
End Write.

(** C10: for a record the validator accepts, [_add_metadata] leaves as many
    entries as the record has keys, which is at least the eleven required
    ones and so not zero; [_write_model_metadata] therefore takes the
    branch that saves the model, and not the one that reports a failed
    write: it ends normally with the model saved, or in the exception of
    [onnx.save]. *)
Theorem accepted_record_is_written
    (json_dumps : Value → string) (json_load : string → option Value)
    (onnx_load : string → option ModelProto) (is_file : string → bool)
    (suffix : string → string) (Path : string → string)
    (onnx_save : string → ModelProto → bool)
    (config_uri : string) (output_uri : option string)
    (data : dict Value) (uri : string) (metadata : dict Value)
    (model : ModelProto) (st st' : State) :
  let model_uri := Path uri in
  json_load config_uri = Some (PyDict data) →
  dict_get data "model_uri" = Some (PyStr uri) →
  is_file model_uri = true →
  suffix model_uri = ".onnx" →
  dict_get data "metadata" = Some (PyDict metadata) →
  onnx_load model_uri = Some model →
  _metadata_validator metadata st = (Normal tt, st') →
  let model' := _add_metadata json_dumps model metadata in
  length (metadata_props model') = length metadata ∧
  (11 ≤ length metadata)%nat ∧
  length (metadata_props model') ≠ 0%nat ∧
  _write_model_metadata json_dumps json_load onnx_load is_file suffix
      Path onnx_save config_uri output_uri st =
    if onnx_save (default model_uri output_uri) model' then
      (Normal tt,
       {| stderr := stderr st';
          stdout := stdout st' ++
            [SuccessfullyWrote (default model_uri output_uri)];
          saved := saved st' ++ [(default model_uri output_uri, model')] |})
    else (Uncaught (LibraryError "onnx.save"), st').
Proof.
  intros model_uri Hload Huri Hfile Hsuf Hmeta Honnx Hvalid model'.
  pose proof (accepted_key_count _ _ _ Hvalid) as Hcount.
  pose proof (add_metadata_count json_dumps model metadata) as Hlen.
  split; [exact Hlen|]. split; [exact Hcount|].
  split; [fold model' in Hlen; lia|].
  by eapply write_accepted.
Qed.

Lemma accepted_record_is_written_witness :
  let model' := _add_metadata sample_dumps sample_model good_record in
  length (metadata_props model') = length good_record ∧
  (11 ≤ length good_record)%nat ∧
  length (metadata_props model') ≠ 0%nat ∧
  _write_model_metadata sample_dumps sample_json_load sample_onnx_load
      sample_is_file sample_suffix sample_Path sample_onnx_save
      "config.json" None initial_state =
    (Normal tt,
     {| stderr := [];
        stdout := [SuccessfullyWrote "net.onnx"];
        saved := [("net.onnx", model')] |}).
Proof.
  apply (accepted_record_is_written sample_dumps sample_json_load
           sample_onnx_load sample_is_file sample_suffix sample_Path
           sample_onnx_save "config.json" None
           [("model_uri", PyStr "net.onnx"); ("metadata", PyDict good_record)]
           "net.onnx" good_record sample_model initial_state initial_state);
    reflexivity.
Defined.

(** *** Booleans and additional keys *)

(** C4 fails on the code: [isinstance(True, int)] holds, and a record whose
    [model_version] is [True] passes every check of the validator. *)
Theorem boolean_passes_as_integer :
  isinstance (PyBool true) class_int = true ∧
  dict_get TYPES "model_version" = Some class_int ∧
  dict_get (with_entry "model_version" (PyBool true)) "model_version"
    = Some (PyBool true) ∧
  _metadata_validator (with_entry "model_version" (PyBool true)) initial_state
    = (Normal tt, initial_state).
Proof. by vm_compute. Qed.

(** A boolean even stands in for the number of classes: [1 != True] is
    false, so one class name goes with [number_of_classes = True]. *)
Lemma boolean_number_of_classes :
  _metadata_validator
    (dict_set "class_names" (PyList [PyStr "person"])
       (with_entry "number_of_classes" (PyBool true))) initial_state
    = (Normal tt, initial_state).
Proof. by vm_compute. Qed.

(** A value of another type is turned away by the same check. *)
Lemma string_rejected_as_integer :
  rejected_with (MetadataShouldBe "model_version" class_int) initial_state
    (_metadata_validator (with_entry "model_version" (PyStr "1")) initial_state).
Proof. by vm_compute. Qed.

(** C5 fails on the code: an additional key with a string value makes the
    template check look its key up in [METADATA], and the validator ends
    in an uncaught [KeyError] in the middle of the per-key checks. *)
Theorem additional_string_key_raises :
  (∀ k, k ∈ keys METADATA → k ∈ keys (with_entry "notes" (PyStr "retrained"))) ∧
  dict_get METADATA "notes" = None ∧
  _metadata_validator (with_entry "notes" (PyStr "retrained")) initial_state
    = (Uncaught (KeyError "notes"), initial_state).
Proof.
  split; [|by vm_compute].
  apply required_keys_subset, (bool_decide_unpack _). by vm_compute.
Qed.

(** The type check, one line earlier, asks first whether it knows the key;
    an additional key with a value that is not a string passes. *)
Lemma additional_integer_key_passes :
  _metadata_validator (with_entry "notes" (PyInt 7)) initial_state
    = (Normal tt, initial_state).
Proof. by vm_compute. Qed.


(** *** The license gate *)

Lemma for_each_error_if {A} (xs : list A) (cond : A → bool) message st :
  for_each xs (λ x, error_if (cond x) message) st =
    if existsb cond xs
    then (SystemExit 1, {| stderr := stderr st ++ [message];
                           stdout := stdout st; saved := saved st |})
    else (Normal tt, st).
Proof.
  induction xs as [|x xs IH]; simpl; [done|].
  unfold mbind, M_bind, bind, error_if at 1.
  destruct (cond x); simpl; [done|]. apply IH.
Qed.

Lemma denied_first_after_start_existsb lic :
  existsb (λ npl, bool_decide (0 < find lic npl)) NON_PERMISIVE_LICENSES = true
  ↔ denied_first_after_start lic.
Proof.
  rewrite existsb_exists. unfold denied_first_after_start. split.
  - intros (npl & Hin%list_elem_of_In & Hpos%bool_decide_eq_true).
    apply find_positive in Hpos as (i & Hi & Hfirst). by exists npl, i.
  - intros (npl & i & Hin & Hi & Hfirst). exists npl.
    split; [by apply list_elem_of_In|].
    apply bool_decide_eq_true, find_positive. by exists i.
Qed.

Lemma check_licensing_run lic st :
  (denied_first_after_start lic ∧
   rejected_with (NonCommercialLicense lic) st (check_licensing lic st)) ∨
  (¬ denied_first_after_start lic ∧
   check_licensing lic st = (Normal tt, st)).
Proof.
  unfold check_licensing, rejected_with. rewrite for_each_error_if.
  destruct (existsb _ _) eqn:He.
  - left. split; [by apply denied_first_after_start_existsb|done].
  - right. split; [|done].
    rewrite <- denied_first_after_start_existsb. congruence.
Qed.


(** A record that differs from [good_record] in its license only, with a
    license text that is neither empty nor the template, passes every
    check before the gate: the validator ends as the gate does. *)
Lemma validator_reaches_gate (model_license : string) (st : State) :
  model_license ≠ "" →
  contains model_license
    "String: License for the model, e.g., Apache 2.0" = false →
  _metadata_validator (with_entry "model_license" (PyStr model_license)) st
    = check_licensing (upper model_license) st.
Proof.
  intros Hne Htpl. destruct model_license as [|c s]; [done|].
  unfold _metadata_validator.
  rewrite decide_True by (apply (bool_decide_unpack _); by vm_compute).
  erewrite bind_run by reflexivity.
  erewrite (bind_run _ _ st tt st).
  2:{ unfold with_entry, good_record. simpl dict_set.
      do 8 (rewrite for_each_step by (by vm_compute)).
      rewrite for_each_step.
      2:{ cbv -[contains]. by rewrite Htpl. }
      do 2 (rewrite for_each_step by (by vm_compute)).
      reflexivity. }
  repeat (erewrite bind_run by reflexivity).
  reflexivity.
Qed.

(** C6, as the code has it, for a license written in ASCII, where [upper]
    is [str.upper].  The gate rejects the upper-cased license text
    exactly when, for some deny-listed token, the leftmost occurrence of
    the token lies at a position greater than zero, and lets it pass
    otherwise; a record that is in order up to its license is rejected or
    accepted as the gate decides.  A license of MIT/GPL, with GPL first
    found at position 4, is rejected; GPL v3, with GPL at position 0,
    passes. *)
Theorem license_gate_first_occurrence (model_license : string) (st : State) :
  isascii model_license = true →
  let lic := upper model_license in
  (rejected_with (NonCommercialLicense lic) st (check_licensing lic st)
     ↔ denied_first_after_start lic) ∧
  (check_licensing lic st = (Normal tt, st)
     ↔ ¬ denied_first_after_start lic) ∧
  (model_license ≠ "" →
   contains model_license
     "String: License for the model, e.g., Apache 2.0" = false →
   _metadata_validator (with_entry "model_license" (PyStr model_license)) st
     = check_licensing lic st) ∧
  (first_occurrence (upper "MIT/GPL") "GPL" 4 ∧
   rejected_with (NonCommercialLicense "MIT/GPL") initial_state
     (_metadata_validator (with_entry "model_license" (PyStr "MIT/GPL"))
                          initial_state)) ∧
  (first_occurrence (upper "GPL v3") "GPL" 0 ∧
   _metadata_validator (with_entry "model_license" (PyStr "GPL v3"))
                       initial_state = (Normal tt, initial_state)).
Proof.
  intros _ lic. split; [|split; [|split; [|split]]].
  - destruct (check_licensing_run lic st) as [[Hd Hrun]|[Hd Hrun]].
    + done.
    + split; [|done]. unfold rejected_with. rewrite Hrun. discriminate.
  - destruct (check_licensing_run lic st) as [[Hd Hrun]|[Hd Hrun]].
    + split; [|done]. unfold rejected_with in Hrun. rewrite Hrun. discriminate.
    + done.
  - apply validator_reaches_gate.
  - split; [|by vm_compute].
    assert (find (upper "MIT/GPL") "GPL" = 4) as Hfind by (by vm_compute).
    destruct (find_from_cases (upper "MIT/GPL") "GPL" 0)
      as [[Hf _]|(i & Hf & Hi)]; unfold find in Hfind.
    + rewrite Hf in Hfind. discriminate.
    + assert (i = 4%nat) as <- by lia. done.
  - split; [|by vm_compute].
    split; [by apply occurs_at_0|lia].
Qed.

Lemma license_gate_first_occurrence_witness :
  isascii "Apache 2.0 or gpl" = true ∧
  let lic := upper "Apache 2.0 or gpl" in
  lic = "APACHE 2.0 OR GPL" ∧
  denied_first_after_start lic ∧
  rejected_with (NonCommercialLicense lic) initial_state
    (_metadata_validator
       (with_entry "model_license" (PyStr "Apache 2.0 or gpl")) initial_state).
Proof.
  split; [reflexivity|]. intros lic.
  destruct (license_gate_first_occurrence "Apache 2.0 or gpl" initial_state
              eq_refl) as (Hgate & _ & Hreach & _).
  assert (rejected_with (NonCommercialLicense lic) initial_state
            (check_licensing lic initial_state)) as Hrej by (by vm_compute).
  split; [reflexivity|]. split; [by apply Hgate|].
  rewrite Hreach; [exact Hrej|done|reflexivity].
Defined.

(** The claim as worded fails on a token that occurs at the start and once
    more: GPL GPL holds GPL at position 4, yet [find] reports position 0 and
    the record passes the gate. *)
Lemma license_gate_repeated_token :
  let lic := upper "GPL GPL" in
  ¬ (rejected_with (NonCommercialLicense lic) initial_state
       (_metadata_validator (with_entry "model_license" (PyStr "GPL GPL"))
                            initial_state)
     ↔ denied_after_start lic).
Proof.
  intros lic [_ H].
  assert (denied_after_start lic) as Hd.
  { exists "GPL", 4%nat. split; [|split; [lia|]].
    - apply (bool_decide_unpack _). by vm_compute.
    - by exists "GPL ", "". }
  apply H in Hd. vm_compute in Hd. discriminate.
Qed.

End MetadataTheory.


(** ** Further facts about statements *)

Module RunFacts.
Import Py PyFacts SetOnnxMetadata Notions.

Lemma bind_normal_inv {S A B} (m : M S A) (k : A → M S B) st b st' :
  (m ≫= k) st = (Normal b, st') →
  ∃ a s, m st = (Normal a, s) ∧ k a s = (Normal b, st').
Proof.
  unfold mbind, M_bind, bind. destruct (m st) as [[a| |] s]; [eauto|done..].
Qed.

Lemma bind_uncaught_inv {S A B} (m : M S A) (k : A → M S B) st e st' :
  (m ≫= k) st = (Uncaught e, st') →
  m st = (Uncaught e, st') ∨
  ∃ a s, m st = (Normal a, s) ∧ k a s = (Uncaught e, st').
Proof.
  unfold mbind, M_bind, bind. destruct (m st) as [[a| |] s]; [eauto|done|].
  intros [= <- <-]. by left.
Qed.

(** *** Tidy statements *)

Lemma tidy_ret {A} P (a : A) : tidy P (mret a).
Proof. by intros st. Qed.

Lemma tidy_raise {A} P e : tidy P (@raise State A e).
Proof. by intros st. Qed.

Lemma tidy_error {A} (P : ErrorMessage → Prop) message :
  P message → tidy P (@_error A message).
Proof. intros HP st. simpl. split; [done|]. by exists message. Qed.

Lemma tidy_error_if (P : ErrorMessage → Prop) cond message :
  (cond = true → P message) → tidy P (error_if cond message).
Proof.
  intros HP. unfold error_if. destruct cond; [by apply tidy_error, HP|].
  apply tidy_ret.
Qed.

Lemma tidy_bind {A B} P (m : M State A) (k : A → M State B) :
  tidy P m → (∀ a, tidy P (k a)) → tidy P (m ≫= k).
Proof.
  intros Hm Hk st. specialize (Hm st). unfold mbind, M_bind, bind.
  destruct (m st) as [[a| |] s]; [|done..].
  subst s. apply Hk.
Qed.

Lemma tidy_for_each {A} P (xs : list A) (body : A → M State unit) :
  (∀ x, x ∈ xs → tidy P (body x)) → tidy P (for_each xs body).
Proof.
  induction xs as [|x xs IH]; intros Hbody; simpl; [apply tidy_ret|].
  intros st. pose proof (Hbody x (list_elem_of_here _ _) st) as Hx.
  unfold mbind, M_bind, bind.
  destruct (body x st) as [[[]| |] s]; [|done..].
  subst s. apply IH. intros y Hy. apply Hbody. by right.
Qed.

Lemma tidy_getitem {V} P (d : dict V) k : tidy P (getitem d k).
Proof. intros st. unfold getitem. by destruct (dict_get d k). Qed.

Lemma tidy_len P v : tidy P (len v).
Proof. intros st. by destruct v. Qed.

Lemma tidy_str_upper P v : tidy P (str_upper v).
Proof. intros st. by destruct v. Qed.

Lemma tidy_py_in P name data : tidy P (py_in name data).
Proof. intros st. by destruct data. Qed.

Lemma tidy_subscript P data name : tidy P (subscript data name).
Proof. intros st. destruct data; try done. apply tidy_getitem. Qed.

Lemma tidy_weaken {A} (P Q : ErrorMessage → Prop) (m : M State A) :
  (∀ message, P message → Q message) → tidy P m → tidy Q m.
Proof.
  intros HPQ Hm st. specialize (Hm st).
  destruct (m st) as [[a| |] s]; [done| |done].
  destruct Hm as (? & message & ? & ?). split; [done|]. exists message. auto.
Qed.

(** A loop of tidy turns that ends normally has run every turn normally. *)
Lemma for_each_normal {A} P (xs : list A) (body : A → M State unit) st st' :
  (∀ x, x ∈ xs → tidy P (body x)) →
  for_each xs body st = (Normal tt, st') →
  st' = st ∧ ∀ x, x ∈ xs → body x st = (Normal tt, st).
Proof.
  induction xs as [|x xs IH]; intros Hbody; simpl.
  - intros [= <-]. split; [done|]. intros x Hx. inversion Hx.
  - intros (u & s & Hx & Hrest)%bind_normal_inv.
    pose proof (Hbody x (list_elem_of_here _ _) st) as Htx.
    rewrite Hx in Htx. subst s. destruct u.
    apply IH in Hrest as [-> Hall]; [|intros y Hy; apply Hbody; by right].
    split; [done|]. intros y [->|Hy]%elem_of_cons; auto.
Qed.

(** And it ends normally when every turn does. *)
Lemma for_each_all_normal {S A} (xs : list A) (body : A → M S unit) st :
  (∀ x, x ∈ xs → body x st = (Normal tt, st)) →
  for_each xs body st = (Normal tt, st).
Proof.
  induction xs as [|x xs IH]; intros Hall; [done|].
  rewrite for_each_step by (apply Hall; left).
  apply IH. intros y Hy. apply Hall. by right.
Qed.

(** A loop of tidy turns that raises does so in one of its turns. *)
Lemma for_each_uncaught {A} P (xs : list A) (body : A → M State unit) st e st' :
  (∀ x, x ∈ xs → tidy P (body x)) →
  for_each xs body st = (Uncaught e, st') →
  ∃ x, x ∈ xs ∧ body x st = (Uncaught e, st).
Proof.
  induction xs as [|x xs IH]; intros Hbody; simpl; [done|].
  pose proof (Hbody x (list_elem_of_here _ _) st) as Htx.
  intros [Hx|(u & s & Hx & Hrest)]%bind_uncaught_inv.
  - rewrite Hx in Htx. subst st'. exists x. split; [left|done].
  - rewrite Hx in Htx. subst s.
    apply IH in Hrest as (y & Hy & Hrun); [|intros z Hz; apply Hbody; by right].
    exists y. split; [by right|done].
Qed.

End RunFacts.

(** ** One turn of the validator's loop *)

Module ValidatorFacts.
Import Py PyFacts SetOnnxMetadata Notions RunFacts.

Lemma validator_unfold metadata :
  _metadata_validator metadata =
    ((if decide ((list_to_set (keys METADATA) : gset string)
                   ⊆ list_to_set (keys metadata))
      then mret tt
      else _error (MissingConfigurationKeys
                     (list_to_set (keys METADATA) ∖ list_to_set (keys metadata))));;
     validator_checks metadata).
Proof. reflexivity. Qed.

Lemma elem_of_keys {V} (d : dict V) k v : (k, v) ∈ d → k ∈ keys d.
Proof. intros H. unfold keys. apply list_elem_of_fmap. by exists (k, v). Qed.

Lemma dict_get_is_Some {V} (d : dict V) k : k ∈ keys d → is_Some (dict_get d k).
Proof.
  induction d as [|[k' v'] d IH]; simpl.
  - intros H. inversion H.
  - destruct (decide (k' = k)) as [->|Hne]; [eauto|].
    intros [?|?]%elem_of_cons; [done|auto].
Qed.

Lemma dict_get_elem_of {V} (d : dict V) k v : dict_get d k = Some v → (k, v) ∈ d.
Proof.
  induction d as [|[k' v'] d IH]; simpl; [done|].
  destruct (decide (k' = k)) as [->|Hne].
  - intros [= ->]. left.
  - intros H. right. auto.
Qed.

Lemma is_none_or_empty_false v :
  is_none_or_empty v = false ↔ v ≠ PyNone ∧ v ≠ PyStr "".
Proof.
  destruct v as [| | | |[|c s]| |]; simpl; split; try done;
    try (by intros [? ?]).
Qed.

Lemma turn_tidy metadata item : tidy validator_message (validator_turn metadata item).
Proof.
  destruct item as [key value]. unfold validator_turn.
  apply tidy_bind; [by apply tidy_error_if|intros _].
  apply tidy_bind.
  { destruct (dict_get TYPES key); [|apply tidy_ret].
    apply tidy_bind; [apply tidy_getitem|intros v]. by apply tidy_error_if. }
  intros _. apply tidy_bind; [apply tidy_getitem|intros v].
  destruct v; try apply tidy_ret.
  apply tidy_bind; [apply tidy_getitem|intros t]. by apply tidy_error_if.
Qed.

Lemma error_if_normal cond message st u st' :
  error_if cond message st = (Normal u, st') → cond = false ∧ st' = st.
Proof. unfold error_if. destruct cond; [done|]. by intros [= <-]. Qed.

Lemma getitem_normal {S V} (d : dict V) k (st : S) v st' :
  getitem d k st = (Normal v, st') → dict_get d k = Some v ∧ st' = st.
Proof. unfold getitem. destruct (dict_get d k); [|done]. by intros [= <- <-]. Qed.

(** What a turn that ends normally has checked. *)
Lemma turn_normal metadata key value st st' :
  validator_turn metadata (key, value) st = (Normal tt, st') ↔
  st' = st ∧
  is_none_or_empty value = false ∧
  (∃ v, dict_get metadata key = Some v ∧
        (∀ cls, dict_get TYPES key = Some cls → isinstance v cls = true) ∧
        (∀ s, v = PyStr s →
              ∃ t, dict_get METADATA key = Some t ∧ contains s t = false)).
Proof.
  unfold validator_turn. split.
  - intros (u1 & s1 & [He ->]%error_if_normal & H)%bind_normal_inv.
    apply bind_normal_inv in H as (u2 & s2 & Hty & H).
    apply bind_normal_inv in H as (v & s3 & [Hv ->]%getitem_normal & H).
    assert (s2 = st ∧ ∀ cls, dict_get TYPES key = Some cls → isinstance v cls = true)
      as [-> Hcls].
    { destruct (dict_get TYPES key) as [cls|].
      - apply bind_normal_inv in Hty as (v' & s & [Hv' ->]%getitem_normal & Hc).
        apply error_if_normal in Hc as [Hc ->]. split; [done|].
        intros ? [= <-]. rewrite Hv in Hv'. injection Hv' as <-.
        by apply negb_false_iff.
      - injection Hty as <-. done. }
    assert (st' = st ∧ ∀ s, v = PyStr s →
              ∃ t, dict_get METADATA key = Some t ∧ contains s t = false)
      as [-> Htpl].
    { destruct v; try (injection H as <-; done).
      apply bind_normal_inv in H as (t & s4 & [Ht ->]%getitem_normal & Hc).
      apply error_if_normal in Hc as [Hc ->]. split; [done|].
      intros ? [= <-]. eauto. }
    eauto 10.
  - intros (-> & He & v & Hv & Hcls & Htpl).
    rewrite He. erewrite bind_run by reflexivity.
    erewrite (bind_run _ _ st tt st).
    2:{ destruct (dict_get TYPES key) as [cls|]; [|done].
        unfold getitem. rewrite Hv. erewrite bind_run by reflexivity.
        by rewrite Hcls. }
    erewrite (bind_run (getitem metadata key))
      by (unfold getitem; rewrite Hv; reflexivity).
    destruct v; try done.
    destruct (Htpl _ eq_refl) as (t & Ht & Hc).
    unfold getitem. rewrite Ht. erewrite bind_run by reflexivity.
    by rewrite Hc.
Qed.

Lemma error_if_uncaught cond message st e st' :
  error_if cond message st = (Uncaught e, st') → False.
Proof. unfold error_if. by destruct cond. Qed.

Lemma getitem_uncaught {S V} (d : dict V) k (st : S) e st' :
  getitem d k st = (Uncaught e, st') →
  dict_get d k = None ∧ e = KeyError k ∧ st' = st.
Proof. unfold getitem. destruct (dict_get d k); [done|]. by intros [= <- <-]. Qed.

(** A turn raises only when a string sits under a key the template does
    not know. *)
Lemma turn_uncaught metadata key value st e st' :
  key ∈ keys metadata →
  validator_turn metadata (key, value) st = (Uncaught e, st') →
  e = KeyError key ∧
  dict_get METADATA key = None ∧
  ∃ s, dict_get metadata key = Some (PyStr s).
Proof.
  intros [v Hv]%dict_get_is_Some. unfold validator_turn.
  intros [H|(u1 & s1 & _ & H)]%bind_uncaught_inv;
    [by apply error_if_uncaught in H|].
  apply bind_uncaught_inv in H as [H|(u2 & s2 & _ & H)].
  { destruct (dict_get TYPES key) as [cls|]; [|done].
    apply bind_uncaught_inv in H as [H|(v' & s & _ & H)].
    - apply getitem_uncaught in H as [H _]. congruence.
    - by apply error_if_uncaught in H. }
  apply bind_uncaught_inv in H as [H|(v' & s3 & [Hv' _]%getitem_normal & H)].
  { apply getitem_uncaught in H as [H _]. congruence. }
  rewrite Hv in Hv'. injection Hv' as <-.
  destruct v; try done.
  apply bind_uncaught_inv in H as [H|(t & s4 & _ & H)].
  - apply getitem_uncaught in H as (Ht & -> & _). eauto.
  - by apply error_if_uncaught in H.
Qed.

End ValidatorFacts.

(** ** The validator as a whole *)

Module ValidatorTheory.
Import Py PyFacts SetOnnxMetadata Notions RunFacts ValidatorFacts.
Import MetadataTheory.

Lemma TYPES_keys : keys TYPES = keys METADATA.
Proof. reflexivity. Qed.

Lemma elem_of_keys_inv {V} (d : dict V) k : k ∈ keys d → ∃ v, (k, v) ∈ d.
Proof.
  unfold keys. intros ([k' v] & -> & H)%list_elem_of_fmap. by exists v.
Qed.

Lemma dict_get_None {V} (d : dict V) k : dict_get d k = None ↔ k ∉ keys d.
Proof.
  split.
  - intros H [v Hv]%dict_get_is_Some. congruence.
  - intros H. destruct (dict_get d k) as [v|] eqn:Hv; [|done].
    by apply dict_get_keys in Hv.
Qed.

Lemma loop_normal metadata st st' :
  for_each metadata (validator_turn metadata) st = (Normal tt, st') ↔
  st' = st ∧ turns_pass metadata.
Proof.
  split.
  - intros [-> Hall]%(for_each_normal validator_message);
      [|intros; apply turn_tidy].
    split; [done|]. intros key value Hin.
    apply Hall, turn_normal in Hin. tauto.
  - intros [-> Hall]. apply for_each_all_normal. intros [key value] Hin.
    apply turn_normal. split; [done|]. by apply Hall.
Qed.

(** What the loop has established once the required keys are there. *)
Lemma turns_pass_facts metadata :
  (∀ k, k ∈ keys METADATA → k ∈ keys metadata) →
  turns_pass metadata ↔
  (∀ k v, (k, v) ∈ metadata → v ≠ PyNone ∧ v ≠ PyStr "") ∧
  (∀ k cls, dict_get TYPES k = Some cls →
            ∃ v, dict_get metadata k = Some v ∧ isinstance v cls = true) ∧
  (∀ k s, dict_get metadata k = Some (PyStr s) →
          ∃ t, dict_get METADATA k = Some t ∧ contains s t = false).
Proof.
  intros Hkeys. split.
  - intros Hall. split; [|split].
    + intros k v Hin. apply is_none_or_empty_false. by apply Hall in Hin as [? _].
    + intros k cls Hcls.
      assert (k ∈ keys metadata) as [v0 Hin]%elem_of_keys_inv.
      { apply Hkeys. rewrite <- TYPES_keys. by eapply dict_get_keys. }
      apply Hall in Hin as (_ & v & Hv & Hty & _). eauto.
    + intros k s Hv. pose proof (dict_get_elem_of _ _ _ Hv) as Hin.
      apply Hall in Hin as (_ & v & Hv' & _ & Htpl).
      rewrite Hv in Hv'. injection Hv' as <-. eauto.
  - intros (Hfilled & Hclasses & Hedited) key value Hin.
    split; [by eapply is_none_or_empty_false, Hfilled|].
    destruct (dict_get_is_Some metadata key) as [v Hv]; [by eapply elem_of_keys|].
    exists v. split; [done|]. split.
    + intros cls Hcls. destruct (Hclasses _ _ Hcls) as (v' & Hv' & Hty).
      congruence.
    + intros s ->. eauto.
Qed.

Lemma check_licensing_normal lic st st' :
  check_licensing lic st = (Normal tt, st') ↔
  st' = st ∧ ¬ denied_first_after_start lic.
Proof.
  destruct (check_licensing_run lic st) as [[Hd Hrun]|[Hd Hrun]].
  - unfold rejected_with in Hrun. rewrite Hrun. split; [done|tauto].
  - rewrite Hrun. split; [by intros [= <-]|]. by intros [-> _].
Qed.

Lemma isinstance_list v : isinstance v class_list = true → ∃ l, v = PyList l.
Proof. destruct v; try done. eauto. Qed.

Lemma isinstance_str v : isinstance v class_str = true → ∃ s, v = PyStr s.
Proof. destruct v; try done. eauto. Qed.

Lemma checks_normal metadata st st' :
  (∀ k, k ∈ keys METADATA → k ∈ keys metadata) →
  validator_checks metadata st = (Normal tt, st') ↔
  st' = st ∧ valid_record metadata.
Proof.
  intros Hkeys. unfold validator_checks. split.
  - intros ([] & s & [-> Hturns]%loop_normal & H)%bind_normal_inv.
    apply (turns_pass_facts _ Hkeys) in Hturns as (Hfilled & Hclasses & Hedited).
    apply bind_normal_inv in H as (cn & s & [Hcn ->]%getitem_normal & H).
    destruct (Hclasses "class_names" class_list eq_refl) as (cn' & Hcn' & Hl).
    rewrite Hcn in Hcn'. injection Hcn' as <-.
    apply isinstance_list in Hl as [l ->].
    apply bind_normal_inv in H as (n & s & [= <- <-] & H).
    apply bind_normal_inv in H as (nc & s & [Hnc ->]%getitem_normal & H).
    apply bind_normal_inv in H as (u' & s & [Hne ->]%error_if_normal & H).
    apply bind_normal_inv in H as (ml & s & [Hml ->]%getitem_normal & H).
    destruct (Hclasses "model_license" class_str eq_refl) as (ml' & Hml' & Hs).
    rewrite Hml in Hml'. injection Hml' as <-.
    apply isinstance_str in Hs as [lic ->].
    apply bind_normal_inv in H as (up & s & [= <- <-] & H).
    apply check_licensing_normal in H as [-> Hlic].
    split; [done|]. constructor; eauto.
  - intros [-> [_ Hfilled Hclasses Hedited (l & n & Hcn & Hnc & Hne) (lic & Hml & Hlic)]].
    erewrite bind_run.
    2:{ apply loop_normal. split; [done|]. by apply turns_pass_facts. }
    erewrite bind_run by (unfold getitem; rewrite Hcn; reflexivity).
    erewrite bind_run by reflexivity.
    erewrite bind_run by (unfold getitem; rewrite Hnc; reflexivity).
    rewrite Hne. erewrite bind_run by reflexivity.
    erewrite bind_run by (unfold getitem; rewrite Hml; reflexivity).
    erewrite bind_run by reflexivity.
    by apply check_licensing_normal.
Qed.

Lemma accepted_iff_valid metadata st st' :
  _metadata_validator metadata st = (Normal tt, st') ↔
  st' = st ∧ valid_record metadata.
Proof.
  rewrite validator_unfold.
  destruct (decide ((list_to_set (keys METADATA) : gset string)
                      ⊆ list_to_set (keys metadata))) as [Hsub|Hsub].
  - pose proof (proj1 (required_keys_subset metadata) Hsub) as Hkeys.
    split.
    + intros ([] & s & [= <-] & H)%bind_normal_inv. by apply checks_normal.
    + intros H. erewrite bind_run by reflexivity. by apply checks_normal.
  - split; [done|]. intros [_ [Hkeys _ _ _ _ _]].
    destruct Hsub. by apply required_keys_subset.
Qed.

Lemma check_licensing_tidy lic : tidy validator_message (check_licensing lic).
Proof.
  unfold check_licensing. apply tidy_for_each. intros npl _.
  by apply tidy_error_if.
Qed.

Lemma checks_tidy metadata : tidy validator_message (validator_checks metadata).
Proof.
  unfold validator_checks.
  apply tidy_bind; [apply tidy_for_each; intros; apply turn_tidy|intros _].
  apply tidy_bind; [apply tidy_getitem|intros cn].
  apply tidy_bind; [apply tidy_len|intros n].
  apply tidy_bind; [apply tidy_getitem|intros nc].
  apply tidy_bind; [by apply tidy_error_if|intros _].
  apply tidy_bind; [apply tidy_getitem|intros ml].
  apply tidy_bind; [apply tidy_str_upper|intros lic].
  apply check_licensing_tidy.
Qed.

Lemma validator_tidy metadata :
  tidy validator_message (_metadata_validator metadata).
Proof.
  rewrite validator_unfold. apply tidy_bind; [|intros _; apply checks_tidy].
  destruct (decide _); [apply tidy_ret|by apply tidy_error].
Qed.

Lemma check_licensing_uncaught lic st e st' :
  check_licensing lic st = (Uncaught e, st') → False.
Proof.
  destruct (check_licensing_run lic st) as [[_ Hrun]|[_ Hrun]];
    [unfold rejected_with in Hrun|]; by rewrite Hrun.
Qed.

(** Whatever the validator raises comes from a turn of the loop. *)
Lemma validator_uncaught metadata st e st' :
  _metadata_validator metadata st = (Uncaught e, st') →
  ∃ k s, e = KeyError k ∧ (k ∉ keys METADATA) ∧
         dict_get metadata k = Some (PyStr s).
Proof.
  rewrite validator_unfold.
  destruct (decide ((list_to_set (keys METADATA) : gset string)
                      ⊆ list_to_set (keys metadata))) as [Hsub|Hsub]; [|done].
  pose proof (proj1 (required_keys_subset metadata) Hsub) as Hkeys.
  intros [H|([] & s & [= <-] & H)]%bind_uncaught_inv; [done|].
  unfold validator_checks in H.
  apply bind_uncaught_inv in H as [H|([] & s & [-> Hturns]%loop_normal & H)].
  { apply (for_each_uncaught validator_message) in H
      as ([k v] & Hin & H); [|intros; apply turn_tidy].
    apply turn_uncaught in H as (-> & Hnone & s & Hs); [|by eapply elem_of_keys].
    exists k, s. split; [done|]. split; [by apply dict_get_None|done]. }
  apply (turns_pass_facts _ Hkeys) in Hturns as (_ & Hclasses & _).
  destruct (Hclasses "class_names" class_list eq_refl) as (cn & Hcn & Hl).
  apply isinstance_list in Hl as [l ->].
  destruct (Hclasses "number_of_classes" class_int eq_refl) as (nc & Hnc & _).
  destruct (Hclasses "model_license" class_str eq_refl) as (ml & Hml & Hs).
  apply isinstance_str in Hs as [lic ->].
  erewrite bind_run in H by (unfold getitem; rewrite Hcn; reflexivity).
  erewrite bind_run in H by reflexivity.
  erewrite bind_run in H by (unfold getitem; rewrite Hnc; reflexivity).
  apply bind_uncaught_inv in H as [H|(u & s & [_ ->]%error_if_normal & H)];
    [by apply error_if_uncaught in H|].
  erewrite bind_run in H by (unfold getitem; rewrite Hml; reflexivity).
  erewrite bind_run in H by reflexivity.
  by apply check_licensing_uncaught in H.
Qed.

Lemma startswith_refl s : startswith s s = true.
Proof. apply startswith_spec. exists "". by induction s; [|rewrite append_cons; f_equal]. Qed.

Lemma contains_refl s : contains s s = true.
Proof.
  unfold contains. apply bool_decide_eq_true.
  unfold find. rewrite find_from_unfold, startswith_refl. lia.
Qed.

End ValidatorTheory.

(** ** What the validator guarantees *)

Module ValidatorProperties.
Import Py PyFacts SetOnnxMetadata Notions RunFacts ValidatorFacts ValidatorTheory.
Import MetadataTheory.

(** X1: for a record whose license, if it is a string, is written in
    ASCII, the validator returns normally exactly when the record holds
    every required key, no [None] and no empty string, a value of the
    declared class under each required key, no string that contains the
    template of its key or sits under a key without template, as many
    class names as [number_of_classes] says, and a license text in which
    no deny-listed token is first found after position zero; and then it
    has printed nothing. *)
Theorem validator_accepts_exactly_valid_records
    (metadata : dict Value) (st st' : State) :
  ascii_license metadata →
  (_metadata_validator metadata st = (Normal tt, st') ↔
   st' = st ∧ valid_record metadata).
Proof.
  intros _. rewrite validator_unfold.
  destruct (decide ((list_to_set (keys METADATA) : gset string)
                      ⊆ list_to_set (keys metadata))) as [Hsub|Hsub].
  - pose proof (proj1 (required_keys_subset metadata) Hsub) as Hkeys.
    split.
    + intros ([] & s & [= <-] & Hchecks)%bind_normal_inv.
      by apply checks_normal.
    + intros Hvalid. erewrite bind_run by reflexivity. by apply checks_normal.
  - split; [done|]. intros [_ Hvalid]. destruct Hsub.
    apply required_keys_subset, (valid_keys _ Hvalid).
Qed.

Lemma validator_accepts_exactly_valid_records_witness :
  ascii_license good_record ∧
  _metadata_validator good_record initial_state = (Normal tt, initial_state) ∧
  valid_record good_record.
Proof.
  assert (ascii_license good_record) as Hascii.
  { intros s Hs. vm_compute in Hs. injection Hs as <-. reflexivity. }
  assert (_metadata_validator good_record initial_state
            = (Normal tt, initial_state)) as Hrun by (by vm_compute).
  split; [exact Hascii|]. split; [exact Hrun|].
  apply (proj1 (validator_accepts_exactly_valid_records
                  good_record initial_state initial_state Hascii) Hrun).
Defined.

(** X2: however the validator ends, it has kept the streams tidy.  After a
    normal return nothing was printed; a rejection is [sys.exit(1)] after
    exactly one of the validator's messages; and the only exception that
    escapes is the [KeyError] for a string stored under a key the template
    does not have, so [len] and [upper] never meet a value of the wrong
    type. *)
Theorem validator_outcomes (metadata : dict Value) (st : State) :
  match _metadata_validator metadata st with
  | (Normal _, st') => st' = st
  | (SystemExit code, st') =>
      code = 1 ∧
      ∃ message, validator_message message ∧ st' = with_error st message
  | (Uncaught e, st') =>
      st' = st ∧
      ∃ k s, e = KeyError k ∧ (k ∉ keys METADATA) ∧
             dict_get metadata k = Some (PyStr s)
  end.
Proof.
  pose proof (validator_tidy metadata st) as Ht.
  destruct (_metadata_validator metadata st) as [[u|code|e] st'] eqn:Hrun;
    [done..|].
  split; [done|]. by eapply validator_uncaught.
Qed.

(** X3: a record in which some key still holds a text that contains the
    template of that key is never accepted, whatever the declared class of
    the key is. *)
Theorem unedited_template_not_accepted
    (metadata : dict Value) (st : State) (k t s : string) :
  dict_get METADATA k = Some t →
  dict_get metadata k = Some (PyStr s) →
  contains s t = true →
  (_metadata_validator metadata st).1 ≠ Normal tt.
Proof.
  intros Ht Hs Hc Hrun.
  destruct (_metadata_validator metadata st) as [r st'] eqn:Hv.
  simpl in Hrun. subst r.
  apply accepted_iff_valid in Hv as [_ Hvalid].
  destruct (valid_edited _ Hvalid k s Hs) as (t' & Ht' & Hc').
  congruence.
Qed.

Lemma unedited_template_not_accepted_witness :
  (_metadata_validator unedited_date_record initial_state).1 ≠ Normal tt.
Proof.
  apply (unedited_template_not_accepted unedited_date_record initial_state
           "model_date"
           "String: Date for which the model is ready, e.g., 2025-01-01"
           "String: Date for which the model is ready, e.g., 2025-01-01");
    reflexivity.
Defined.

(** X4: a record with a string under a key the template does not have is
    never accepted either: the validator ends in an error exit or in the
    [KeyError] of the template lookup. *)
Theorem string_under_unknown_key_not_accepted
    (metadata : dict Value) (st : State) (k s : string) :
  k ∉ keys METADATA →
  dict_get metadata k = Some (PyStr s) →
  (_metadata_validator metadata st).1 ≠ Normal tt.
Proof.
  intros Hk Hs Hrun.
  destruct (_metadata_validator metadata st) as [r st'] eqn:Hv.
  simpl in Hrun. subst r.
  apply accepted_iff_valid in Hv as [_ Hvalid].
  destruct (valid_edited _ Hvalid k s Hs) as (t' & Ht' & _).
  by apply dict_get_keys in Ht'.
Qed.

Lemma string_under_unknown_key_not_accepted_witness :
  (_metadata_validator (with_entry "notes" (PyStr "retrained")) initial_state).1
    ≠ Normal tt.
Proof.
  apply (string_under_unknown_key_not_accepted _ initial_state
           "notes" "retrained"); [|reflexivity].
  apply (bool_decide_unpack _). by vm_compute.
Defined.

(** The loop stops at the first turn that does not end normally. *)
Lemma for_each_first_failure {A} (pre post : list A) (x : A)
    (body : A → M State unit) st r st' :
  (∀ y, y ∈ pre → body y st = (Normal tt, st)) →
  body x st = (r, st') → r ≠ Normal tt →
  for_each (pre ++ x :: post) body st = (r, st').
Proof.
  intros Hpre Hx Hr. induction pre as [|y pre IH]; simpl.
  - unfold mbind, M_bind, bind. rewrite Hx. by destruct r as [[]| |].
  - erewrite bind_run by (apply Hpre; left).
    apply IH. intros z Hz. apply Hpre. by right.
Qed.

(** X5: the per-key checks are made item by item, in the order of the
    record.  When the required keys are there, the first item for which
    the emptiness, the class or the template check fails decides how the
    validator ends, whatever the items after it hold. *)
Theorem first_failing_item_decides
    (metadata pre post : dict Value) (item : string * Value)
    (st st' : State) (r : Result unit) :
  (∀ k, k ∈ keys METADATA → k ∈ keys metadata) →
  metadata = pre ++ item :: post →
  (∀ x, x ∈ pre → validator_turn metadata x st = (Normal tt, st)) →
  validator_turn metadata item st = (r, st') →
  r ≠ Normal tt →
  _metadata_validator metadata st = (r, st').
Proof.
  intros Hkeys Hsplit Hpre Hitem Hr.
  rewrite validator_unfold, decide_True by (by apply required_keys_subset).
  erewrite bind_run by reflexivity.
  unfold validator_checks.
  assert (for_each metadata (validator_turn metadata) st = (r, st')) as Hloop.
  { rewrite Hsplit at 1. by apply for_each_first_failure. }
  unfold mbind, M_bind, bind. rewrite Hloop. by destruct r as [[]| |].
Qed.

Lemma first_failing_item_decides_witness :
  _metadata_validator two_faults_record initial_state =
    (SystemExit 1,
     with_error initial_state (MetadataShouldBe "model_architecture" class_str)).
Proof.
  apply (first_failing_item_decides two_faults_record
           [("model_type", PyStr "Object Detection")]
           (drop 2 two_faults_record)
           ("model_architecture", PyInt 5)).
  - apply required_keys_subset, (bool_decide_unpack _). by vm_compute.
  - reflexivity.
  - intros x ->%list_elem_of_singleton. by vm_compute.
  - by vm_compute.
  - discriminate.
Defined.

End ValidatorProperties.

(** ** How the write pipeline ends *)

Module WriteTheory.
Import Py PyFacts SetOnnxMetadata Notions RunFacts ValidatorFacts ValidatorTheory.
Import MetadataTheory.

Lemma ends_tidily_bind {A B} P (R : B → State → Prop)
    (m : M State A) (k : A → M State B) st :
  tidy P m →
  (∀ a, m st = (Normal a, st) → ends_tidily P R st (k a st)) →
  ends_tidily P R st ((m ≫= k) st).
Proof.
  intros Hm Hk. specialize (Hm st). unfold mbind, M_bind, bind.
  destruct (m st) as [[a| |] s] eqn:Hrun; [|done..].
  subst s. by apply Hk.
Qed.

Lemma ends_tidily_error {A} (P : ErrorMessage → Prop) (R : A → State → Prop)
    message st :
  P message → ends_tidily P R st (_error message st).
Proof. intros HP. simpl. split; [done|]. by exists message. Qed.

Lemma validator_message_write message :
  validator_message message → write_message message.
Proof. intros H uri ->. done. Qed.

Lemma py_in_normal {S} name data (st : S) b st' :
  py_in name data st = (Normal b, st') →
  match data with
  | PyDict d => b = bool_decide (name ∈ keys d)
  | PyList _ | PyStr _ => True
  | _ => False
  end.
Proof. destruct data; simpl; try done. by intros [= <-]. Qed.

Lemma subscript_normal {S} data name (st : S) v st' :
  subscript data name st = (Normal v, st') →
  ∃ d, data = PyDict d ∧ dict_get d name = Some v.
Proof.
  destruct data; simpl; try done.
  intros [H _]%getitem_normal. eauto.
Qed.

Section Write.

Variable json_dumps : Value → string.
Variable json_load : string → option Value.
Variable onnx_load : string → option ModelProto.
Variable is_file : string → bool.
Variable suffix : string → string.
Variable Path : string → string.
Variable onnx_save : string → ModelProto → bool.

Lemma write_ends_tidily config_uri output_uri st :
  ends_tidily write_message
    (λ _ st', written_from json_dumps json_load onnx_load is_file suffix
                Path onnx_save config_uri output_uri st st')
    st
    (_write_model_metadata json_dumps json_load onnx_load is_file suffix
       Path onnx_save config_uri output_uri st).
Proof.
  unfold _write_model_metadata.
  apply (ends_tidily_bind write_message).
  { destruct (json_load config_uri); [apply tidy_ret|apply tidy_raise]. }
  intros data Hdata.
  assert (json_load config_uri = Some data) as Hload.
  { destruct (json_load config_uri); [by injection Hdata as ->|done]. }
  apply (ends_tidily_bind write_message); [apply tidy_py_in|intros b1 _].
  apply (ends_tidily_bind write_message).
  { apply tidy_error_if. by intros _ uri. }
  intros _ _.
  apply (ends_tidily_bind write_message); [apply tidy_subscript|].
  intros uri (d & -> & Huri)%subscript_normal.
  apply (ends_tidily_bind write_message).
  { destruct uri; first [apply tidy_ret|apply tidy_raise]. }
  intros model_uri Hpath.
  assert (∃ text, uri = PyStr text ∧ model_uri = Path text) as (text & -> & ->).
  { destruct uri; try done. injection Hpath as <-. eauto. }
  apply (ends_tidily_bind write_message).
  { apply tidy_error_if. by intros _ u. }
  intros _ [Hfile _]%error_if_normal. apply negb_false_iff in Hfile.
  apply (ends_tidily_bind write_message).
  { apply tidy_error_if. by intros _ u. }
  intros _ [Hsuf _]%error_if_normal.
  apply bool_decide_eq_false, dec_stable in Hsuf.
  apply (ends_tidily_bind write_message); [apply tidy_py_in|intros b2 _].
  apply (ends_tidily_bind write_message).
  { apply tidy_error_if. by intros _ u. }
  intros _ _.
  apply (ends_tidily_bind write_message); [apply tidy_subscript|].
  intros md (d' & [= <-] & Hmd)%subscript_normal.
  destruct md as [| | | | | |metadata].
  1-6: by apply ends_tidily_error; intros u.
  apply (ends_tidily_bind write_message).
  { eapply tidy_weaken; [apply validator_message_write|apply validator_tidy]. }
  intros [] Hvalid.
  apply (ends_tidily_bind write_message).
  { destruct (onnx_load (Path text)); [apply tidy_ret|apply tidy_raise]. }
  intros model Hmodel.
  assert (onnx_load (Path text) = Some model) as Honnx.
  { destruct (onnx_load (Path text)); [by injection Hmodel as ->|done]. }
  rewrite bool_decide_eq_true_2.
  2:{ rewrite add_metadata_count. apply accepted_key_count in Hvalid. lia. }
  destruct (onnx_save _ _) eqn:Hsave; [|done].
  simpl. exists d, text, metadata, model.
  apply accepted_iff_valid in Hvalid as [_ Hvalid]. done.
Qed.

Lemma write_normal_iff config_uri output_uri st st' :
  _write_model_metadata json_dumps json_load onnx_load is_file suffix
      Path onnx_save config_uri output_uri st = (Normal tt, st') ↔
  written_from json_dumps json_load onnx_load is_file suffix
      Path onnx_save config_uri output_uri st st'.
Proof.
  split.
  - intros Hrun. pose proof (write_ends_tidily config_uri output_uri st) as H.
    by rewrite Hrun in H.
  - intros (data & uri & metadata & model & Hload & Huri & Hfile & Hsuf
            & Hmeta & Hvalid & Honnx & Hsave & ->).
    erewrite write_accepted; eauto; [|by apply accepted_iff_valid].
    by rewrite Hsave.
Qed.

End Write.

(** The license of the sample configuration is plain ASCII. *)
Lemma sample_config_ascii : ascii_config sample_json_load "config.json".
Proof. intros data metadata [= <-] [= <-] s [= <-]. reflexivity. Defined.

(** With the sample configuration and an output in the directory that
    cannot be written to, the run passes every check and ends in the
    exception of [onnx.save], having saved and printed nothing. *)
Lemma write_to_locked_directory :
  _write_model_metadata sample_dumps sample_json_load sample_onnx_load
      sample_is_file sample_suffix sample_Path sample_onnx_save
      "config.json" (Some "locked/net.onnx") initial_state
    = (Uncaught (LibraryError "onnx.save"), initial_state).
Proof. by vm_compute. Qed.

End WriteTheory.

(** ** What the write pipeline guarantees *)

Module WriteProperties.
Import Py PyFacts SetOnnxMetadata Notions RunFacts ValidatorFacts ValidatorTheory.
Import MetadataTheory WriteTheory.

(** X6: for a configuration whose license text is ASCII,
    [_write_model_metadata] returns normally exactly when the
    configuration is an object whose [model_uri] is a string that, as a
    [Path], names an existing file with suffix [.onnx], whose [metadata]
    is an object that is a valid record, the model loads, and [onnx.save]
    succeeds; it has then printed the success notice and saved, under the
    output path or else the model path, the loaded model with the entries
    of the record, once. *)
Theorem write_returns_iff_valid
    (json_dumps : Value → string) (json_load : string → option Value)
    (onnx_load : string → option ModelProto) (is_file : string → bool)
    (suffix : string → string) (Path : string → string)
    (onnx_save : string → ModelProto → bool)
    (config_uri : string) (output_uri : option string) (st st' : State) :
  ascii_config json_load config_uri →
  _write_model_metadata json_dumps json_load onnx_load is_file suffix
      Path onnx_save config_uri output_uri st = (Normal tt, st') ↔
  written_from json_dumps json_load onnx_load is_file suffix
      Path onnx_save config_uri output_uri st st'.
Proof.
  intros _. split.
  - intros Hrun.
    pose proof (write_ends_tidily json_dumps json_load onnx_load is_file
                  suffix Path onnx_save config_uri output_uri st) as Hends.
    by rewrite Hrun in Hends.
  - intros (data & uri & metadata & model & Hload & Huri & Hfile & Hsuf
            & Hmeta & Hvalid & Honnx & Hsave & ->).
    rewrite (write_accepted json_dumps json_load onnx_load is_file suffix
               Path onnx_save config_uri output_uri data uri metadata model
               st st); try done.
    + by rewrite Hsave.
    + by apply accepted_iff_valid.
Qed.

Lemma write_returns_iff_valid_witness :
  let model' := _add_metadata sample_dumps sample_model good_record in
  let st' := {| stderr := []; stdout := [SuccessfullyWrote "net.onnx"];
                saved := [("net.onnx", model')] |} in
  _write_model_metadata sample_dumps sample_json_load sample_onnx_load
      sample_is_file sample_suffix sample_Path sample_onnx_save
      "config.json" None initial_state = (Normal tt, st') ↔
  written_from sample_dumps sample_json_load sample_onnx_load
      sample_is_file sample_suffix sample_Path sample_onnx_save
      "config.json" None initial_state st'.
Proof.
  apply (write_returns_iff_valid sample_dumps sample_json_load
           sample_onnx_load sample_is_file sample_suffix sample_Path
           sample_onnx_save "config.json" None initial_state).
  apply sample_config_ascii.
Defined.

(** X7: when [_write_model_metadata] does not return normally, it has
    saved no model and printed no notice.  It has then either raised,
    leaving the state as it was, or exited with status 1 after exactly one
    message, and that message is never the one for a write without
    entries. *)
Theorem write_failure_saves_nothing
    (json_dumps : Value → string) (json_load : string → option Value)
    (onnx_load : string → option ModelProto) (is_file : string → bool)
    (suffix : string → string) (Path : string → string)
    (onnx_save : string → ModelProto → bool)
    (config_uri : string) (output_uri : option string) (st : State) :
  let run := _write_model_metadata json_dumps json_load onnx_load is_file
               suffix Path onnx_save config_uri output_uri st in
  run.1 ≠ Normal tt →
  saved run.2 = saved st ∧ stdout run.2 = stdout st ∧
  ((∃ e, run.1 = Uncaught e ∧ run.2 = st) ∨
   (run.1 = SystemExit 1 ∧
    ∃ message, (∀ uri, message ≠ FailedToWrite uri) ∧
               run.2 = with_error st message)).
Proof.
  intros run Hfail.
  pose proof (write_ends_tidily json_dumps json_load onnx_load is_file
                suffix Path onnx_save config_uri output_uri st) as H.
  fold run in H. destruct run as [[[]|code|e] st']; simpl in *.
  - done.
  - destruct H as (-> & message & Hm & ->). split; [done|]. split; [done|].
    right. split; [done|]. by exists message.
  - subst st'. split; [done|]. split; [done|]. left. by exists e.
Qed.

Lemma write_failure_saves_nothing_witness :
  let run := _write_model_metadata sample_dumps (λ _, Some faulty_config)
               sample_onnx_load sample_is_file sample_suffix
               sample_Path sample_onnx_save
               "config.json" None initial_state in
  saved run.2 = [] ∧ stdout run.2 = [] ∧
  ((∃ e, run.1 = Uncaught e ∧ run.2 = initial_state) ∨
   (run.1 = SystemExit 1 ∧
    ∃ message, (∀ uri, message ≠ FailedToWrite uri) ∧
               run.2 = with_error initial_state message)).
Proof.
  apply (write_failure_saves_nothing sample_dumps (λ _, Some faulty_config)
           sample_onnx_load sample_is_file sample_suffix
           sample_Path sample_onnx_save
           "config.json" None initial_state).
  by vm_compute.
Defined.

End WriteProperties.

(** ** The command line of the metadata tool *)

Module MainTheory.
Import Py PyFacts SetOnnxMetadata SetOnnxMetadataMain Notions RunFacts.
Import ValidatorFacts ValidatorTheory MetadataTheory WriteTheory.

Lemma dict_get_Some_iff {V} (d : dict V) k v :
  NoDup (keys d) → dict_get d k = Some v ↔ (k, v) ∈ d.
Proof.
  intros Hnd. split; [apply dict_get_elem_of|].
  induction d as [|[k' v'] d IH]; [by intros ?%elem_of_nil|].
  apply NoDup_cons in Hnd as [Hk' Hnd]. simpl.
  intros [[= -> ->]|Hin]%elem_of_cons.
  - by rewrite decide_True.
  - rewrite decide_False; [by apply IH|].
    intros ->. apply Hk'. by eapply elem_of_keys.
Qed.

Lemma dict_get_perm {V} (d d' : dict V) k :
  NoDup (keys d) → d ≡ₚ d' → dict_get d' k = dict_get d k.
Proof.
  intros Hnd Hperm.
  assert (NoDup (keys d')) as Hnd'.
  { unfold keys in *. by rewrite <- Hperm. }
  destruct (dict_get d k) as [v|] eqn:Hv.
  - apply dict_get_Some_iff; [done|]. rewrite <- Hperm.
    by apply dict_get_Some_iff.
  - destruct (dict_get d' k) as [v'|] eqn:Hv'; [|done].
    apply dict_get_Some_iff in Hv'; [|done]. rewrite <- Hperm in Hv'.
    apply dict_get_Some_iff in Hv'; [congruence|done].
Qed.

Lemma template_record_keys : keys (prod_map id PyStr <$> METADATA) = keys METADATA.
Proof. reflexivity. Qed.

(** The record of the template is turned away in whatever order its keys
    are read back. *)
Lemma template_record_rejected (metadata : dict Value) st :
  metadata ≡ₚ prod_map id PyStr <$> METADATA →
  ∃ message,
    validator_message message ∧
    _metadata_validator metadata st = (SystemExit 1, with_error st message).
Proof.
  intros Hperm.
  assert (NoDup (keys (prod_map id PyStr <$> METADATA))) as Hnd.
  { rewrite template_record_keys. apply METADATA_keys_NoDup. }
  pose proof (validator_tidy metadata st) as Ht.
  destruct (_metadata_validator metadata st) as [[[]|code|e] st'] eqn:Hrun.
  - apply accepted_iff_valid in Hrun as [_ Hvalid].
    destruct (valid_edited _ Hvalid "model_type"
                "String: Object Detection, Pixel Segmentation, etc.")
      as (t & [= <-] & Hc).
    { by rewrite (dict_get_perm _ _ _ Hnd (symmetry Hperm)). }
    by rewrite contains_refl in Hc.
  - destruct Ht as (-> & message & Hm & ->). by exists message.
  - apply validator_uncaught in Hrun as (k & s & _ & Hk & Hs).
    apply dict_get_keys in Hs. destruct Hk.
    rewrite <- template_record_keys. unfold keys in *. by rewrite <- Hperm.
Qed.

Section Main.

Variable json_dumps : Value → string.
Variable json_load : string → option Value.
Variable onnx_load : string → option ModelProto.
Variable is_file : string → bool.
Variable suffix : string → string.
Variable Path : string → string.
Variable onnx_save : string → ModelProto → bool.
Variable abspath : string → string.
Variable argv0 : string.
Variable writable : string → bool.

#[local] Abbreviation run_with :=
  (run_with json_dumps json_load onnx_load is_file suffix Path onnx_save
            abspath argv0 writable).
#[local] Abbreviation write :=
  (_write_model_metadata json_dumps json_load onnx_load is_file suffix
                         Path onnx_save).

(** With [--make_config] the run is that of [_write_config_template]. *)
Lemma template_mode_run args p make :
  make_config args = Some make →
  run_with args p =
    let path := if bool_decide (suffix make ≠ ".json")
                then make +:+ ".json" else make in
    if writable path then
      (SystemExit 0,
       {| core := core p; cli_stderr := cli_stderr p;
          cli_stdout := cli_stdout p ++
            [GeneratedTemplate (abspath path);
             UpdateAndRun argv0 (abspath path)];
          templates := templates p ++ [(path, template)] |})
    else (Uncaught (OSError path), p).
Proof.
  intros Hmake. unfold SetOnnxMetadataMain.run_with. rewrite Hmake.
  unfold _write_config_template, print, mbind, M_bind, bind, modify, sys_exit,
         raise.
  simpl. destruct (writable _); [|done]. simpl. by rewrite <- app_assoc.
Qed.

(** Without [--make_config], [main] goes by the configuration path and by
    how the write ends. *)
Lemma config_mode_run args p :
  make_config args = None →
  (run_with args p).1 =
    match config_uri args with
    | None => SystemExit 1
    | Some c =>
        if is_file c then
          if bool_decide (suffix c = ".json") then
            match (write c (output_uri args) (core p)).1 with
            | Normal _ => SystemExit 0
            | r => r
            end
          else SystemExit 1
        else SystemExit 1
    end.
Proof.
  intros Hmake. unfold SetOnnxMetadataMain.run_with. rewrite Hmake.
  erewrite bind_run by reflexivity.
  destruct (config_uri args) as [c|]; [|done].
  erewrite bind_run by reflexivity.
  destruct (is_file c); [|done].
  erewrite bind_run by reflexivity.
  destruct (bool_decide (suffix c = ".json")); [|done].
  erewrite bind_run by reflexivity.
  unfold mbind, M_bind, bind, in_core.
  by destruct (write c (output_uri args) (core p)) as [[[]| |] s].
Qed.

(** When the arguments were parsed, the status is 0 exactly when the
    template was written, or the model was. *)
Lemma run_with_exit_status args p :
  (∀ u, (run_with args p).1 ≠ Normal u) ∧
  (∀ code, (run_with args p).1 = SystemExit code → code = 0 ∨ code = 1) ∧
  ((run_with args p).1 = SystemExit 0 ↔
     (∃ make, make_config args = Some make ∧
              writable (if bool_decide (suffix make ≠ ".json")
                        then make +:+ ".json" else make) = true) ∨
     (make_config args = None ∧
      ∃ c st',
        config_uri args = Some c ∧ is_file c = true ∧ suffix c = ".json" ∧
        written_from json_dumps json_load onnx_load is_file suffix
          Path onnx_save c (output_uri args) (core p) st')).
Proof.
  destruct (make_config args) as [make|] eqn:Hmake.
  { rewrite (template_mode_run _ _ _ Hmake). cbv zeta.
    destruct (writable _) eqn:Hw; simpl.
    - split; [done|]. split; [intros ? [= <-]; by left|].
      split; [intros _; left; eauto|done].
    - split; [done|]. split; [done|].
      split; [done|]. intros [(make' & [= <-] & Hw')|[[=] _]]. congruence. }
  rewrite (config_mode_run _ _ Hmake).
  assert (∀ (P : string → Prop) (Q : Prop),
            ((∃ make : string, None = Some make ∧ P make) ∨
             (None = @None string ∧ Q)) ↔ Q) as Hor.
  { intros P Q. split; [intros [(? & [=] & _)|[_ ?]]; done|by right]. }
  rewrite Hor. clear Hor.
  destruct (config_uri args) as [c|] eqn:Hc.
  2:{ split; [done|]. split; [intros ? [= <-]; by right|].
      split; [done|]. by intros (? & ? & [=] & _). }
  destruct (is_file c) eqn:Hfile.
  2:{ split; [done|]. split; [intros ? [= <-]; by right|].
      split; [done|]. intros (? & ? & [= <-] & ? & _). congruence. }
  destruct (bool_decide (suffix c = ".json")) eqn:Hsuf.
  2:{ apply bool_decide_eq_false in Hsuf.
      split; [done|]. split; [intros ? [= <-]; by right|].
      split; [done|]. intros (? & ? & [= <-] & _ & ? & _). congruence. }
  apply bool_decide_eq_true in Hsuf.
  pose proof (write_ends_tidily json_dumps json_load onnx_load is_file suffix
                Path onnx_save c (output_uri args) (core p)) as Ht.
  destruct (write c (output_uri args) (core p)) as [[[]|code|e] s] eqn:Hw;
    simpl in *.
  - split; [done|]. split; [intros ? [= <-]; by left|].
    split; [|done]. intros _. exists c, s. done.
  - destruct Ht as [-> _].
    split; [done|]. split; [intros ? [= <-]; by right|].
    split; [done|]. intros (c' & st' & [= <-] & _ & _ & Hwf).
    apply write_normal_iff in Hwf. congruence.
  - split; [done|]. split; [done|].
    split; [done|]. intros (c' & st' & [= <-] & _ & _ & Hwf).
    apply write_normal_iff in Hwf. congruence.
Qed.

End Main.

End MainTheory.

(** ** What the command line of the metadata tool guarantees *)

Module MainProperties.
Import Py PyFacts SetOnnxMetadata SetOnnxMetadataMain Notions RunFacts.
Import ValidatorFacts ValidatorTheory MetadataTheory WriteTheory MainTheory.

(** X8: with [--make_config] among the parsed arguments, [main] turns to
    the template whatever the other arguments are, and reads, validates
    and saves nothing.  The path is the one given, with [.json] appended
    unless that is its suffix.  Where the file can be written, [main]
    writes the template document to it, prints its two notices and exits
    with status 0; where it cannot, [main] ends in the [OSError] of
    [open], with nothing printed.  The record of the document, read back
    with its keys in any order, is turned away by the validator with an
    error exit. *)
Theorem template_mode_writes_only_template
    (json_dumps : Value → string) (json_load : string → option Value)
    (onnx_load : string → option ModelProto) (is_file : string → bool)
    (suffix : string → string) (Path : string → string)
    (onnx_save : string → ModelProto → bool)
    (abspath : string → string) (argv0 : string) (writable : string → bool)
    (args : Namespace) (p : Process) (make : string) :
  make_config args = Some make →
  ∃ path record,
    path = (if bool_decide (suffix make ≠ ".json")
            then make +:+ ".json" else make) ∧
    template = PyDict [("model_uri", PyStr "/path/to/model.onnx");
                       ("metadata", PyDict record)] ∧
    main json_dumps json_load onnx_load is_file suffix Path onnx_save
         abspath argv0 writable (Parsed args) p =
      (if writable path then
         (SystemExit 0,
          {| core := core p; cli_stderr := cli_stderr p;
             cli_stdout := cli_stdout p ++
               [GeneratedTemplate (abspath path);
                UpdateAndRun argv0 (abspath path)];
             templates := templates p ++ [(path, template)] |})
       else (Uncaught (OSError path), p)) ∧
    ∀ metadata st,
      metadata ≡ₚ record →
      ∃ message,
        _metadata_validator metadata st = (SystemExit 1, with_error st message).
Proof.
  intros Hmake. eexists _, _. split; [reflexivity|]. split; [reflexivity|].
  split.
  { simpl. by rewrite (template_mode_run _ _ _ _ _ _ _ _ _ _ _ _ _ Hmake). }
  intros metadata st Hperm.
  destruct (template_record_rejected metadata st Hperm) as (message & _ & Hrun).
  by exists message.
Qed.

Lemma template_mode_writes_only_template_witness :
  ∃ path record,
    path = "config.json" ∧
    template = PyDict [("model_uri", PyStr "/path/to/model.onnx");
                       ("metadata", PyDict record)] ∧
    main sample_dumps sample_json_load sample_onnx_load sample_is_file
         sample_suffix sample_Path sample_onnx_save
         (λ path, "/work/" +:+ path) "set_onnx_metadata.py" (λ _, true)
         (Parsed {| config_uri := Some "other.json"; output_uri := None;
                    make_config := Some "config" |}) initial_process =
      (SystemExit 0,
       {| core := initial_state; cli_stderr := [];
          cli_stdout :=
            [GeneratedTemplate "/work/config.json";
             UpdateAndRun "set_onnx_metadata.py" "/work/config.json"];
          templates := [("config.json", template)] |}) ∧
    ∀ metadata st,
      metadata ≡ₚ record →
      ∃ message,
        _metadata_validator metadata st = (SystemExit 1, with_error st message).
Proof.
  destruct (template_mode_writes_only_template sample_dumps sample_json_load
              sample_onnx_load sample_is_file sample_suffix sample_Path
              sample_onnx_save
              (λ path, "/work/" +:+ path) "set_onnx_metadata.py" (λ _, true)
              {| config_uri := Some "other.json"; output_uri := None;
                 make_config := Some "config" |} initial_process "config"
              eq_refl)
    as (path & record & -> & Hdoc & Hrun & Hrejected).
  exists "config.json", record.
  split; [reflexivity|]. split; [exact Hdoc|]. split; [exact Hrun|].
  exact Hrejected.
Defined.

(** Where the template cannot be written, the same command line ends in
    the [OSError] of [open] and leaves the process as it was. *)
Lemma template_unwritable :
  main sample_dumps sample_json_load sample_onnx_load sample_is_file
       sample_suffix sample_Path sample_onnx_save
       (λ path, "/work/" +:+ path) "set_onnx_metadata.py" (λ _, false)
       (Parsed {| config_uri := Some "other.json"; output_uri := None;
                  make_config := Some "config" |}) initial_process
    = (Uncaught (OSError "config.json"), initial_process).
Proof. by vm_compute. Qed.

(** X9: [main], whichever way [_cli()] ends and for configurations whose
    license text is ASCII, never runs off its end, and exits with status
    0, 1 or 2 when it exits.  The status is 2 exactly when
    [argparse] rejected the command line.  It is 0 exactly when the help
    was asked for, or a template was asked for and could be written, or no
    template was asked for, the configuration path names an existing file
    with suffix [.json] and [_write_model_metadata] has returned, that is,
    has saved a model with a valid record. *)
Theorem main_exit_status
    (json_dumps : Value → string) (json_load : string → option Value)
    (onnx_load : string → option ModelProto) (is_file : string → bool)
    (suffix : string → string) (Path : string → string)
    (onnx_save : string → ModelProto → bool)
    (abspath : string → string) (argv0 : string) (writable : string → bool)
    (cli : CommandLine) (p : Process) :
  (∀ args c, cli = Parsed args → config_uri args = Some c →
             ascii_config json_load c) →
  let run := main json_dumps json_load onnx_load is_file suffix Path
               onnx_save abspath argv0 writable cli p in
  (∀ u, run.1 ≠ Normal u) ∧
  (∀ code, run.1 = SystemExit code → code = 0 ∨ code = 1 ∨ code = 2) ∧
  (run.1 = SystemExit 2 ↔ cli = Rejected) ∧
  (run.1 = SystemExit 0 ↔
     cli = HelpRequested ∨
     ∃ args, cli = Parsed args ∧
       ((∃ make, make_config args = Some make ∧
                 writable (if bool_decide (suffix make ≠ ".json")
                           then make +:+ ".json" else make) = true) ∨
        (make_config args = None ∧
         ∃ c st',
           config_uri args = Some c ∧ is_file c = true ∧
           suffix c = ".json" ∧
           written_from json_dumps json_load onnx_load is_file suffix
             Path onnx_save c (output_uri args) (core p) st'))).
Proof.
  intros _ run. subst run. destruct cli as [args| |]; simpl.
  - destruct (run_with_exit_status json_dumps json_load onnx_load is_file
                suffix Path onnx_save abspath argv0 writable args p)
      as (Hnormal & Hcode & Hzero).
    split; [done|]. split.
    { intros code Hrun. destruct (Hcode code Hrun); auto. }
    split.
    { split; [|done]. intros Hrun. destruct (Hcode 2 Hrun); done. }
    rewrite Hzero. split.
    + intros H. right. by exists args.
    + intros [[=]|(args' & [= <-] & H)]. done.
  - split; [done|]. split; [intros ? [= <-]; auto|].
    split; [done|]. split; [by left|done].
  - split; [done|]. split; [intros ? [= <-]; auto|].
    split; [done|]. split; [done|]. by intros [[=]|(? & [=] & _)].
Qed.

Lemma main_exit_status_witness :
  let run := main sample_dumps sample_json_load sample_onnx_load
               sample_files sample_ext sample_Path sample_onnx_save
               sample_abspath "set_onnx_metadata.py" sample_writable
               sample_cli initial_process in
  (∀ u, run.1 ≠ Normal u) ∧
  (∀ code, run.1 = SystemExit code → code = 0 ∨ code = 1 ∨ code = 2) ∧
  (run.1 = SystemExit 2 ↔ sample_cli = Rejected) ∧
  (run.1 = SystemExit 0 ↔
     sample_cli = HelpRequested ∨
     ∃ args, sample_cli = Parsed args ∧
       ((∃ make, make_config args = Some make ∧
                 sample_writable (if bool_decide (sample_ext make ≠ ".json")
                                  then make +:+ ".json" else make) = true) ∨
        (make_config args = None ∧
         ∃ c st',
           config_uri args = Some c ∧ sample_files c = true ∧
           sample_ext c = ".json" ∧
           written_from sample_dumps sample_json_load sample_onnx_load
             sample_files sample_ext sample_Path sample_onnx_save
             c (output_uri args) (core initial_process) st'))).
Proof.
  apply (main_exit_status sample_dumps sample_json_load sample_onnx_load
           sample_files sample_ext sample_Path sample_onnx_save
           sample_abspath "set_onnx_metadata.py" sample_writable
           sample_cli initial_process).
  intros args c [= <-] [= <-]. apply sample_config_ascii.
Defined.

End MainProperties.

(** ** Further properties of the diff tool *)

Module DiffFacts.
Import Py PyFacts OnnxModelValidator DiffTheory.


Lemma descriptors_length layers : ∀ idx,
  length (descriptors idx layers) = length layers.
Proof. induction layers as [|layer layers IH]; intros idx; simpl; auto. Qed.

Lemma descriptors_lookup_layer layers : ∀ idx (i : nat) layer,
  layers !! i = Some layer →
  descriptors idx layers !! i =
    Some {| layer_id := idx + Z.of_nat i; layer_name := arg_name layer;
            layer_shape := arg_shape layer |}.
Proof.
  induction layers as [|l layers IH]; intros idx [|i] layer; simpl; try done.
  - intros [= ->]. by rewrite Z.add_0_r.
  - intros H. rewrite (IH _ _ _ H).
    by replace (idx + 1 + Z.of_nat i) with (idx + Z.of_nat (S i)) by lia.
Qed.

(** *** [endswith] *)

Lemma append_assoc (s t u : string) : (s +:+ t) +:+ u = s +:+ t +:+ u.
Proof. induction s as [|c s IH]; [done|]. by rewrite !append_cons, IH. Qed.

Lemma rev_app_append s : ∀ acc, String.rev_app s acc = String.rev_app s "" +:+ acc.
Proof.
  induction s as [|c s IH]; intros acc; simpl; [done|].
  rewrite (IH (String c acc)), (IH (String c "")), append_assoc. done.
Qed.

Lemma rev_append s t : String.rev (s +:+ t) = String.rev t +:+ String.rev s.
Proof.
  unfold String.rev. rewrite <- rev_app_append.
  generalize "". induction s as [|c s IH]; intros acc; [done|].
  rewrite append_cons. simpl. apply IH.
Qed.

Lemma endswith_append s p : endswith (s +:+ p) p = true.
Proof.
  unfold endswith. rewrite rev_append. apply startswith_spec. eauto.
Qed.

End DiffFacts.

(** ** What the diff tool guarantees *)

Module DiffProperties.
Import Py PyFacts OnnxModelValidator DiffSamples DiffTheory DiffFacts.
Import Notions.

(** X10: when the session opens, [get_in_out_layers] returns a dictionary
    with the keys [inputs] and [outputs] and no other; each holds one
    descriptor per tensor, in the order of the session, with the position
    as [id] and the name and shape of the tensor. *)
Theorem get_in_out_layers_enumerates
    (w : World) (model_file : string) (input_layers output_layers : list NodeArg) :
  InferenceSession w model_file = Some (input_layers, output_layers) →
  ∃ layer_data inputs outputs,
    get_in_out_layers w model_file = Normal layer_data ∧
    layer_data !! "inputs" = Some inputs ∧
    layer_data !! "outputs" = Some outputs ∧
    (∀ group, group ≠ "inputs" → group ≠ "outputs" →
              layer_data !! group = None) ∧
    length inputs = length input_layers ∧
    length outputs = length output_layers ∧
    (∀ (i : nat) layer, input_layers !! i = Some layer →
       inputs !! i = Some {| layer_id := Z.of_nat i;
                             layer_name := arg_name layer;
                             layer_shape := arg_shape layer |}) ∧
    (∀ (i : nat) layer, output_layers !! i = Some layer →
       outputs !! i = Some {| layer_id := Z.of_nat i;
                              layer_name := arg_name layer;
                              layer_shape := arg_shape layer |}).
Proof.
  intros Hs. unfold get_in_out_layers, parse_layers. rewrite Hs.
  erewrite parse_layers_from_spec by done.
  erewrite parse_layers_from_spec by done.
  eexists _, (descriptors 0 input_layers), (descriptors 0 output_layers).
  split; [reflexivity|]. split.
  { rewrite lookup_insert_ne by done. by rewrite lookup_insert_eq. }
  split; [by rewrite lookup_insert_eq|]. split.
  { intros group Hi Ho. by rewrite !lookup_insert_ne by done. }
  split; [apply descriptors_length|]. split; [apply descriptors_length|].
  split; intros i layer Hl; by rewrite (descriptors_lookup_layer _ _ _ _ Hl).
Qed.

Lemma get_in_out_layers_enumerates_witness :
  ∃ layer_data inputs outputs,
    get_in_out_layers mask_world "a.onnx" = Normal layer_data ∧
    layer_data !! "inputs" = Some inputs ∧
    layer_data !! "outputs" = Some outputs ∧
    (∀ group, group ≠ "inputs" → group ≠ "outputs" →
              layer_data !! group = None) ∧
    length inputs = length [image; mask] ∧
    length outputs = length [scores] ∧
    (∀ (i : nat) layer, [image; mask] !! i = Some layer →
       inputs !! i = Some {| layer_id := Z.of_nat i;
                             layer_name := arg_name layer;
                             layer_shape := arg_shape layer |}) ∧
    (∀ (i : nat) layer, [scores] !! i = Some layer →
       outputs !! i = Some {| layer_id := Z.of_nat i;
                              layer_name := arg_name layer;
                              layer_shape := arg_shape layer |}).
Proof.
  apply (get_in_out_layers_enumerates mask_world "a.onnx" [image; mask] [scores]).
  reflexivity.
Defined.

(** X11: for sequences that differ, [diff_models] returns 1 and writes the
    entry of the group: [a_layers] holds the descriptors of [a] that do not
    occur in [b], in the order of [a], [b_layers] those of [b] that do not
    occur in [a], and [symantic_difference] the first followed by the
    second.  No descriptor is in both. *)
Theorem differences_reported
    (a b : list LayerData) (group : string) (st : State) :
  ready st → a ≠ b →
  ∃ st' a_only b_only,
    diff_models a b group st = (Normal 1, st') ∧
    reported st' group = Some (group_entry a_only b_only) ∧
    (∀ x, x ∈ a_only ↔ x ∈ a ∧ x ∉ b) ∧
    (∀ x, x ∈ b_only ↔ x ∈ b ∧ x ∉ a) ∧
    a_only `sublist_of` a ∧ b_only `sublist_of` b ∧
    (∀ x, x ∈ a_only → x ∉ b_only).
Proof.
  intros (m & c & Hm & Hc)%ready_inv Hne.
  rewrite (diff_models_run a b group st m c Hm Hc), decide_False by done.
  eexists _, (a_minus_b a b), (b_minus_a a b).
  split; [reflexivity|]. split.
  { unfold reported. simpl. by rewrite dict_get_set. }
  unfold a_minus_b, b_minus_a.
  split; [intros x; rewrite list_elem_of_filter; tauto|].
  split; [intros x; rewrite list_elem_of_filter; tauto|].
  split; [apply sublist_filter|]. split; [apply sublist_filter|].
  intros x [_ Ha]%list_elem_of_filter [Hna _]%list_elem_of_filter. done.
Qed.

Lemma differences_reported_witness :
  ∃ st' a_only b_only,
    diff_models (descriptors 0 [image; mask]) (descriptors 0 [image]) "Inputs"
                ready_state = (Normal 1, st') ∧
    reported st' "Inputs" = Some (group_entry a_only b_only) ∧
    (∀ x, x ∈ a_only ↔
          x ∈ descriptors 0 [image; mask] ∧ x ∉ descriptors 0 [image]) ∧
    (∀ x, x ∈ b_only ↔
          x ∈ descriptors 0 [image] ∧ x ∉ descriptors 0 [image; mask]) ∧
    a_only `sublist_of` descriptors 0 [image; mask] ∧
    b_only `sublist_of` descriptors 0 [image] ∧
    (∀ x, x ∈ a_only → x ∉ b_only).
Proof.
  apply (differences_reported (descriptors 0 [image; mask])
           (descriptors 0 [image]) "Inputs" ready_state).
  - unfold ready. vm_compute. eauto.
  - discriminate.
Defined.




(** X13: when one of the two model paths is not a file, [main] neither
    reports that nor compares anything: the local holding the path was
    never assigned, and [main] ends in an uncaught [UnboundLocalError]
    with no report written. *)
Theorem main_missing_model (w : World) (args : Namespace) (st : State) :
  is_file w (arg_model_a args) = false ∨ is_file w (arg_model_b args) = false →
  let run := main w args st in
  ∃ name,
    (name = "model_a" ∨ name = "model_b") ∧
    run.1 = Uncaught (UnboundLocalError name) ∧
    process_status run.1 = 1 ∧
    compatability_of run.2 = None ∧
    groups (REPORT run.2) = groups (REPORT st) ∧
    exit_status (REPORT run.2) = exit_status (REPORT st) ∧
    written run.2 = written st.
Proof.
  intros Hmissing run. subst run. unfold main.
  destruct (is_file w (arg_model_a args)) eqn:Ha.
  - destruct Hmissing as [?|Hb]; [done|]. rewrite Hb.
    exists "model_b". split; [by right|]. run_step. done.
  - exists "model_a". split; [by left|]. run_step. done.
Qed.

Lemma main_missing_model_witness :
  let run := main lonely_world both_groups initial_state in
  ∃ name,
    (name = "model_a" ∨ name = "model_b") ∧
    run.1 = Uncaught (UnboundLocalError name) ∧
    process_status run.1 = 1 ∧
    compatability_of run.2 = None ∧
    groups (REPORT run.2) = groups (REPORT initial_state) ∧
    exit_status (REPORT run.2) = exit_status (REPORT initial_state) ∧
    written run.2 = written initial_state.
Proof.
  apply (main_missing_model lonely_world both_groups initial_state).
  by right.
Defined.

Section Runs.

Variables (w : World) (args : Namespace) (st : State).
Variables ia oa ib ob : list NodeArg.
Hypothesis file_a : is_file w (arg_model_a args) = true.
Hypothesis file_b : is_file w (arg_model_b args) = true.
Hypothesis session_a : InferenceSession w (arg_model_a args) = Some (ia, oa).
Hypothesis session_b : InferenceSession w (arg_model_b args) = Some (ib, ob).

(** X14: without a path for the report, a run that compares both groups
    does all its work, stores the exit status in [REPORT], and then ends in
    the [TypeError] of [open(None)]: nothing is written, and the process
    status is 1 whether or not the models are compatible. *)
Theorem main_without_report_path :
  arg_layer_type args = "both" →
  arg_output_uri args = None →
  let run := main w args st in
  let same := bool_decide (descriptors 0 ia = descriptors 0 ib ∧
                           descriptors 0 oa = descriptors 0 ob) in
  run.1 = Uncaught (TypeError "open") ∧
  process_status run.1 = 1 ∧
  exit_status (REPORT run.2) = Some (if same then 0 else 1) ∧
  written run.2 = written st.
Proof.
  intros Hty Hout.
  destruct (get_in_out_layers_spec _ _ _ _ session_a) as (la & Hla & Hlai & Hlao).
  destruct (get_in_out_layers_spec _ _ _ _ session_b) as (lb & Hlb & Hlbi & Hlbo).
  unfold main. rewrite Hty, file_a, file_b, Hout. run_step.
  rewrite Hla, Hlb. simpl. rewrite Hlai, Hlbi. simpl.
  erewrite diff_models_run by reflexivity.
  destruct (decide (descriptors 0 ia = descriptors 0 ib)) as [Hi|Hi];
    simpl; rewrite Hlao, Hlbo; simpl;
    (erewrite diff_models_run by reflexivity);
    destruct (decide (descriptors 0 oa = descriptors 0 ob)) as [Ho|Ho];
    simpl;
    first [rewrite bool_decide_eq_true_2 by done
          |rewrite bool_decide_eq_false_2 by tauto]; done.
Qed.

(** X15: with both groups requested and a path for the report, [main]
    compares both groups and stores in [REPORT] a flag for each, an entry
    for each group that differs and for no other, and as [exit_status] 0
    when both groups are equal and 1 otherwise.  The report goes to the
    path given or to that path with [.json] appended, so that the file
    name always ends in [.json].  Where that file can be written, [main]
    writes [REPORT] as it stands to it, once, and exits with the stored
    status; where it cannot, nothing is written and [main] ends in the
    [OSError] of [open]. *)
Theorem main_both_writes_report (out : string) :
  arg_layer_type args = "both" →
  arg_output_uri args = Some out →
  groups (REPORT st) = [] →
  let run := main w args st in
  let same_inputs := bool_decide (descriptors 0 ia = descriptors 0 ib) in
  let same_outputs := bool_decide (descriptors 0 oa = descriptors 0 ob) in
  let status := if same_inputs && same_outputs then 0 else 1 in
  ∃ path,
    (path = out ∨ path = out +:+ ".json") ∧
    endswith path ".json" = true ∧
    run.1 = (if writable w path then SystemExit status
             else Uncaught (OSError path)) ∧
    written run.2 =
      (if writable w path
       then written st ++ [(path, (REPORT run.2, arg_indent args))]
       else written st) ∧
    exit_status (REPORT run.2) = Some status ∧
    compatible run.2 "Inputs" = Some same_inputs ∧
    compatible run.2 "Outputs" = Some same_outputs ∧
    reported run.2 "Inputs" =
      (if same_inputs then None
       else Some (group_entry (a_minus_b (descriptors 0 ia) (descriptors 0 ib))
                              (b_minus_a (descriptors 0 ia) (descriptors 0 ib)))) ∧
    reported run.2 "Outputs" =
      (if same_outputs then None
       else Some (group_entry (a_minus_b (descriptors 0 oa) (descriptors 0 ob))
                              (b_minus_a (descriptors 0 oa) (descriptors 0 ob)))).
Proof.
  intros Hty Hout Hgroups.
  destruct (get_in_out_layers_spec _ _ _ _ session_a) as (la & Hla & Hlai & Hlao).
  destruct (get_in_out_layers_spec _ _ _ _ session_b) as (lb & Hlb & Hlbi & Hlbo).
  exists (if endswith out ".json" then out else out +:+ ".json").
  split; [destruct (endswith out ".json"); auto|].
  split.
  { destruct (endswith out ".json") eqn:He; [done|apply endswith_append]. }
  unfold main. rewrite Hty, file_a, file_b, Hout. run_step.
  rewrite Hla, Hlb. simpl. rewrite Hlai, Hlbi. simpl.
  erewrite diff_models_run by reflexivity.
  destruct (decide (descriptors 0 ia = descriptors 0 ib)) as [Hi|Hi];
    simpl; rewrite Hlao, Hlbo; simpl;
    (erewrite diff_models_run by reflexivity);
    destruct (decide (descriptors 0 oa = descriptors 0 ob)) as [Ho|Ho];
    simpl; rewrite Hgroups;
    rewrite ?(bool_decide_eq_true_2 _ Hi), ?(bool_decide_eq_false_2 _ Hi),
            ?(bool_decide_eq_true_2 _ Ho), ?(bool_decide_eq_false_2 _ Ho);
    destruct (endswith out ".json"); destruct (writable w _); simpl; done.
Qed.

(** X16: with a single group requested, [main] compares that group, sets
    its flag, and then always ends in the [UnboundLocalError] for the
    status of the other group: no exit status is stored, no report is
    written, and the process status is 1 also for compatible models. *)
Theorem main_single_group_raises :
  arg_layer_type args = "inputs" ∨ arg_layer_type args = "outputs" →
  let run := main w args st in
  let inputs_only := bool_decide (arg_layer_type args = "inputs") in
  run.1 = Uncaught (UnboundLocalError
                      (if inputs_only then "output_status" else "input_status")) ∧
  process_status run.1 = 1 ∧
  compatible run.2 (if inputs_only then "Inputs" else "Outputs") =
    Some (if inputs_only
          then bool_decide (descriptors 0 ia = descriptors 0 ib)
          else bool_decide (descriptors 0 oa = descriptors 0 ob)) ∧
  compatible run.2 (if inputs_only then "Outputs" else "Inputs") = None ∧
  exit_status (REPORT run.2) = exit_status (REPORT st) ∧
  written run.2 = written st.
Proof.
  intros Hty.
  destruct (get_in_out_layers_spec _ _ _ _ session_a) as (la & Hla & Hlai & Hlao).
  destruct (get_in_out_layers_spec _ _ _ _ session_b) as (lb & Hlb & Hlbi & Hlbo).
  unfold main. destruct Hty as [Hty|Hty]; rewrite Hty, file_a, file_b; run_step;
    rewrite Hla, Hlb; simpl.
  - rewrite Hlai, Hlbi. simpl. erewrite diff_models_run by reflexivity.
    destruct (decide (descriptors 0 ia = descriptors 0 ib)) as [Hi|Hi]; simpl;
      rewrite ?(bool_decide_eq_true_2 _ Hi), ?(bool_decide_eq_false_2 _ Hi);
      done.
  - rewrite Hlao, Hlbo. simpl. erewrite diff_models_run by reflexivity.
    destruct (decide (descriptors 0 oa = descriptors 0 ob)) as [Ho|Ho]; simpl;
      rewrite ?(bool_decide_eq_true_2 _ Ho), ?(bool_decide_eq_false_2 _ Ho);
      done.
Qed.

End Runs.

Lemma main_without_report_path_witness :
  let run := main twin_world no_report_path initial_state in
  run.1 = Uncaught (TypeError "open") ∧
  process_status run.1 = 1 ∧
  exit_status (REPORT run.2) = Some 0 ∧
  written run.2 = [].
Proof.
  apply (main_without_report_path twin_world no_report_path initial_state
           _ _ _ _ eq_refl eq_refl eq_refl eq_refl eq_refl eq_refl).
Defined.

Lemma main_both_writes_report_witness :
  let run := main mask_world both_groups initial_state in
  ∃ path,
    (path = "report" ∨ path = "report.json") ∧
    endswith path ".json" = true ∧
    run.1 = SystemExit 1 ∧
    written run.2 = [(path, (REPORT run.2, 4))] ∧
    exit_status (REPORT run.2) = Some 1 ∧
    compatible run.2 "Inputs" = Some false ∧
    compatible run.2 "Outputs" = Some true ∧
    reported run.2 "Inputs" =
      Some (group_entry [{| layer_id := 1; layer_name := "mask";
                            layer_shape := [DimStr "N"; DimInt 224; DimInt 224] |}]
                        []) ∧
    reported run.2 "Outputs" = None.
Proof.
  apply (main_both_writes_report mask_world both_groups initial_state
           [image; mask] [scores] [image] [scores]
           eq_refl eq_refl eq_refl eq_refl "report" eq_refl eq_refl eq_refl).
Defined.

(** In a directory that cannot be written to, the same run stores its
    status and ends in the [OSError] of [open], with no report. *)
Lemma main_both_report_unwritable :
  let run := main readonly_world both_groups initial_state in
  run.1 = Uncaught (OSError "report.json") ∧
  process_status run.1 = 1 ∧
  exit_status (REPORT run.2) = Some 1 ∧
  written run.2 = [].
Proof. by vm_compute. Qed.

Lemma main_single_group_raises_witness :
  let run := main mask_world outputs_only initial_state in
  run.1 = Uncaught (UnboundLocalError "input_status") ∧
  process_status run.1 = 1 ∧
  compatible run.2 "Outputs" = Some true ∧
  compatible run.2 "Inputs" = None ∧
  exit_status (REPORT run.2) = None ∧
  written run.2 = [].
Proof.
  apply (main_single_group_raises mask_world outputs_only initial_state
           [image; mask] [scores] [image] [scores]
           eq_refl eq_refl eq_refl eq_refl).
  by right.
Defined.

End DiffProperties.
